(** * typeform_browserless: a shallow embedding of the form-filling script

    The script fetches rows, fetches a Typeform schema, asks a completion
    service for one answer per field and replays the answers in a browser
    through keyboard actions.  This development embeds the script's own
    functions ([get_form_fields], [map_row_to_typeform],
    [fill_and_submit_form], the main loop) and establishes the properties
    the specification states about them.

    Modelling choices.
    - Python values are the values [json.loads] produces: [None], booleans,
      integers, strings, lists and dictionaries (insertion ordered, keys are
      strings).  JSON numbers with a fractional part are not represented.
    - A Python [str] is a Rocq [string] holding its UTF-8 bytes.  Splitting
      on a comma, removing spaces and testing a prefix work on the bytes.
      The builtins that depend on the Unicode tables ([str.lower],
      [str.isdigit], [int] of a string) are computed here on ASCII strings;
      on a string that has a non-ASCII character they are the interpreter's,
      which a [world] carries as it carries [repr].
    - The interpreter's limit on the number of digits of a conversion between
      [int] and [str] is its setting [int_max_str_digits] (4300 by default
      where the limit exists, 0 for no limit).  The integers of an Answer Map
      were built by [json.loads] from their decimal text under that limit,
      so that [str] of such an integer does not raise.
    - Everything outside the script (browser, HTTP, completion service,
      table store, JSON parser, temporary files) is an external call whose
      outcome is chosen by an arbitrary [world], a function of the history
      of the run.  Exceptions are the instances of Python's [Exception]
      class; printing and sleeping always succeed.
    - The statements the module runs on import (reading the environment,
      creating the clients) come before [main] and are not modelled. *)

From Stdlib Require Import String Ascii List ZArith Bool Lia.
From Stdlib Require Import DecimalString DecimalPos.
Import ListNotations.

Set Warnings "-register-all".
Local Open Scope list_scope.
Local Open Scope string_scope.

(** ** Python values and the builtins the script uses *)

Module Py.

Inductive value : Type :=
| VNone
| VBool (b : bool)
| VInt (n : Z)
| VStr (s : string)
| VList (items : list value)
| VDict (entries : list (string * value)).

(** Instances of [Exception] the script can meet. [LibraryError] stands for
    whatever a third-party call raises (Playwright, requests, openai, ...). *)
Inductive exn : Type :=
| TypeError
| ValueError
| AttributeError
| HTTPError (status : Z)
| LibraryError (what : string).

Inductive outcome (A : Type) : Type :=
| Ok (a : A)
| Raise (e : exn).
Arguments Ok {A} a.
Arguments Raise {A} e.

Definition is_ok {A} (r : outcome A) : bool :=
  match r with Ok _ => true | Raise _ => false end.

(** [bool(v)] *)
Definition truthy (v : value) : bool :=
  match v with
  | VNone => false
  | VBool b => b
  | VInt n => negb (Z.eqb n 0)
  | VStr s => negb (String.eqb s "")
  | VList items => match items with [] => false | _ :: _ => true end
  | VDict entries => match entries with [] => false | _ :: _ => true end
  end.

(** [v is not None] *)
Definition is_not_none (v : value) : bool :=
  match v with VNone => false | _ => true end.

(** [sep.join(parts)] *)
Fixpoint join (sep : string) (parts : list string) : string :=
  match parts with
  | [] => ""
  | [p] => p
  | p :: rest => p ++ sep ++ join sep rest
  end.

(** Decimal rendering of an integer, as [str(n)] prints it. *)
Definition str_of_Z (n : Z) : string := NilZero.string_of_int (Z.to_int n).

(** [repr(v)]; [repr_str] is the builtin [repr] on strings (quoting and
    escaping), which the script only reaches through [str] of a container. *)
Fixpoint py_repr (repr_str : string -> string) (v : value) : string :=
  match v with
  | VNone => "None"
  | VBool true => "True"
  | VBool false => "False"
  | VInt n => str_of_Z n
  | VStr s => repr_str s
  | VList items => "[" ++ join ", " (map (py_repr repr_str) items) ++ "]"
  | VDict entries =>
      "{" ++ join ", "
               (map (fun kv : string * value => let (k, x) := kv in
                               repr_str k ++ ": " ++ py_repr repr_str x)
                    entries) ++ "}"
  end.

(** [str(v)] *)
Definition py_str (repr_str : string -> string) (v : value) : string :=
  match v with
  | VStr s => s
  | _ => py_repr repr_str v
  end.

(** [a == b] where [b] is a string literal. *)
Definition eq_str (v : value) (s : string) : bool :=
  match v with VStr t => String.eqb t s | _ => false end.

(** [v in [s1, s2, ...]] for a list of string literals. *)
Definition in_strs (v : value) (l : list string) : bool :=
  existsb (eq_str v) l.

(** Lookup in a dictionary's entries. *)
Fixpoint assoc (k : string) (entries : list (string * value)) : option value :=
  match entries with
  | [] => None
  | (k', x) :: rest => if String.eqb k k' then Some x else assoc k rest
  end.

(** [d.get(key, default)]: [AttributeError] when [d] is not a dictionary,
    [TypeError] when the key is unhashable; a hashable key that is not a
    string is never found, the keys being strings. *)
Definition dict_get (d key default : value) : outcome value :=
  match d with
  | VDict entries =>
      match key with
      | VList _ | VDict _ => Raise TypeError
      | VStr k => Ok (match assoc k entries with Some x => x | None => default end)
      | _ => Ok default
      end
  | _ => Raise AttributeError
  end.

(** The elements [for x in v] visits; [TypeError] when [v] is not iterable. *)
Definition py_iter (v : value) : outcome (list value) :=
  match v with
  | VList items => Ok items
  | VDict entries => Ok (map (fun kv => VStr (fst kv)) entries)
  | VStr s => Ok (map (fun c => VStr (String c "")) (list_ascii_of_string s))
  | _ => Raise TypeError
  end.

(** *** Strings *)

Definition code (c : ascii) : Z := Z.of_N (N_of_ascii c).

(** A string of ASCII characters only. *)
Definition is_ascii (s : string) : bool :=
  forallb (fun c => (code c <? 128)%Z) (list_ascii_of_string s).

Definition is_digit (c : ascii) : bool := (48 <=? code c)%Z && (code c <=? 57)%Z.

(** [s.isdigit()] on an ASCII string: not empty, and the digits 0 to 9 only.
    On any string [str_isdigit] below. *)
Definition isdigit (s : string) : bool :=
  match s with
  | "" => false
  | _ => forallb is_digit (list_ascii_of_string s)
  end.

Definition lower_char (c : ascii) : ascii :=
  if (65 <=? code c)%Z && (code c <=? 90)%Z
  then ascii_of_N (N_of_ascii c + 32)
  else c.

(** [s.lower()] on an ASCII string: the letters A to Z are lowered, every
    other byte is kept.  On any string [str_lower] below. *)
Fixpoint lower (s : string) : string :=
  match s with
  | "" => ""
  | String c r => String (lower_char c) (lower r)
  end.

(** [s.replace(" ", "")] *)
Fixpoint remove_spaces (s : string) : string :=
  match s with
  | "" => ""
  | String c r => if Ascii.eqb c " " then remove_spaces r
                  else String c (remove_spaces r)
  end.

(** [s.split(sep)] for a one-character separator. *)
Fixpoint split (sep : ascii) (s : string) : list string :=
  match s with
  | "" => [""]
  | String c r =>
      if Ascii.eqb c sep then "" :: split sep r
      else match split sep r with
           | [] => [String c ""]
           | t :: ts => String c t :: ts
           end
  end.

(** [s.startswith(p)] *)
Definition startswith (p s : string) : bool := String.prefix p s.

(** Value of a run of decimal digits, most significant first. *)
Fixpoint digits_value (acc : Z) (s : string) : Z :=
  match s with
  | "" => acc
  | String c r => digits_value (10 * acc + (code c - 48)) r
  end.

(** Whitespace that [int] skips around a numeral in an ASCII string: the
    characters 9 to 13 and the space. *)
Definition is_space (c : ascii) : bool :=
  let n := code c in
  ((9 <=? n) && (n <=? 13) || (n =? 32))%Z.

Fixpoint lstrip (s : string) : string :=
  match s with
  | "" => ""
  | String c r => if is_space c then lstrip r else s
  end.

(** The digits of a numeral body [digit (_? digit)*] followed by optional
    whitespace, or [None].  [prev] tells what was read last: [0] nothing,
    [1] a digit, [2] an underscore. *)
Fixpoint numeral_body (prev : nat) (s : string) : option string :=
  match s with
  | "" => match prev with 1%nat => Some "" | _ => None end
  | String c r =>
      if is_digit c then option_map (String c) (numeral_body 1 r)
      else if Ascii.eqb c "_" then
        match prev with 1%nat => numeral_body 2 r | _ => None end
      else match prev with
           | 1%nat => match lstrip s with "" => Some "" | _ => None end
           | _ => None
           end
  end.

(** The integer an ASCII string denotes in base ten, if it is a numeral:
    optional whitespace, an optional sign, digits with single underscores
    between them, optional whitespace. *)
Definition int_of_string (s : string) : option Z :=
  match lstrip s with
  | String "-" r => option_map (fun d => (- digits_value 0 d)%Z) (numeral_body 0 r)
  | String "+" r => option_map (digits_value 0) (numeral_body 0 r)
  | r => option_map (digits_value 0) (numeral_body 0 r)
  end.

(** What the interpreter decides: its Unicode tables, as far as the script
    consults them, and its limit on the digits of a conversion.
    [unicode_lower] lowers the letters that are not ASCII, [unicode_isdigit]
    and [unicode_int] are [str.isdigit] and [int] on a string that has a
    non-ASCII character ([None] where [int] raises [ValueError]), and
    [int_max_str_digits] is [sys.get_int_max_str_digits()]. *)
Record interpreter : Type := {
  unicode_lower : string -> string;
  unicode_isdigit : string -> bool;
  unicode_int : string -> option Z;
  int_max_str_digits : nat
}.

(** [s.lower()] *)
Definition str_lower (i : interpreter) (s : string) : string :=
  if is_ascii s then lower s else unicode_lower i (lower s).

(** [s.isdigit()] *)
Definition str_isdigit (i : interpreter) (s : string) : bool :=
  if is_ascii s then isdigit s else unicode_isdigit i s.

(** The number of digits of an ASCII string. *)
Definition digit_count (s : string) : nat :=
  length (filter is_digit (list_ascii_of_string s)).

(** The test of the limit: a string of more than 640 digits is refused when
    the limit is set and the string has more digits than it allows. *)
Definition over_limit (i : interpreter) (s : string) : bool :=
  (640 <? digit_count s)%nat
  && (0 <? int_max_str_digits i)%nat
  && (int_max_str_digits i <? digit_count s)%nat.

(** [int(s)] on a string, base ten; [None] where it raises [ValueError]. *)
Definition str_int (i : interpreter) (s : string) : option Z :=
  if is_ascii s then
    if over_limit i s then None else int_of_string s
  else unicode_int i s.

(** [int(v)] *)
Definition py_int (i : interpreter) (v : value) : outcome Z :=
  match v with
  | VInt n => Ok n
  | VBool b => Ok (if b then 1 else 0)%Z
  | VStr s => match str_int i s with Some n => Ok n | None => Raise ValueError end
  | VNone | VList _ | VDict _ => Raise TypeError
  end.

Definition byte_of (n : Z) : ascii := ascii_of_N (Z.to_N n).

(** UTF-8 bytes of the code point [n]. *)
Definition utf8 (n : Z) : string :=
  (if n <? 128 then String (byte_of n) ""
   else if n <? 2048 then
     String (byte_of (192 + n / 64)) (String (byte_of (128 + n mod 64)) "")
   else if n <? 65536 then
     String (byte_of (224 + n / 4096))
       (String (byte_of (128 + (n / 64) mod 64))
          (String (byte_of (128 + n mod 64)) ""))
   else
     String (byte_of (240 + n / 262144))
       (String (byte_of (128 + (n / 4096) mod 64))
          (String (byte_of (128 + (n / 64) mod 64))
             (String (byte_of (128 + n mod 64)) ""))))%Z.

(** [chr(n)]: [ValueError] outside [range(0x110000)]. *)
Definition chr (n : Z) : outcome string :=
  if ((0 <=? n) && (n <? 1114112))%Z then Ok (utf8 n) else Raise ValueError.

(** [ord('a')] *)
Definition ord_a : Z := 97.

End Py.
Import Py.

(** A dictionary the script builds itself, such as a field description. *)
Definition dict : Type := list (string * value).

(** [d.get(k, default)] on such a dictionary. *)
Definition get (d : dict) (k : string) (default : value) : value :=
  match assoc k d with Some x => x | None => default end.

(** Sequencing of computations that may raise. *)
Definition and_then {A B} (o : outcome A) (k : A -> outcome B) : outcome B :=
  match o with Ok a => k a | Raise e => Raise e end.

Notation "'let?' x ':=' o 'in' k" := (and_then o (fun x => k))
  (at level 10, x name, o at level 100, k at level 200).

(** [ [g(x) for x in xs] ] where [g] may raise. *)
Fixpoint map_outcome {A B} (g : A -> outcome B) (xs : list A) : outcome (list B) :=
  match xs with
  | [] => Ok []
  | x :: rest =>
      let? y := g x in
      let? ys := map_outcome g rest in
      Ok (y :: ys)
  end.

(** [range(n)] *)
Definition py_range (n : Z) : list Z := map Z.of_nat (seq 0 (Z.to_nat n)).

(** [enumerate(l)], counting from [i]. *)
Fixpoint enumerate_from {A} (i : nat) (l : list A) : list (nat * A) :=
  match l with
  | [] => []
  | x :: rest => (i, x) :: enumerate_from (S i) rest
  end.

Definition enumerate {A} (l : list A) : list (nat * A) := enumerate_from 0 l.

(** ** The outside world *)

(** What [requests.get] returns, as far as the script reads it. *)
Record response : Type := { status_code : Z; content : string }.

(** [resp.raise_for_status()] *)
Definition raise_for_status (resp : response) : outcome unit :=
  if ((400 <=? status_code resp) && (status_code resp <? 600))%Z
  then Raise (HTTPError (status_code resp))
  else Ok tt.

(** The calls the script makes to code that is not its own.
    [ChatCompletionCreate] stands for building the prompt from the fields and
    the row, the request, and reading [choices[0].message["content"]] off the
    response; [RequestsGet] takes the timeout in seconds, if any; waits and
    timeouts of the page are in milliseconds. *)
Inductive call : Type :=
| SupabaseSelect (table columns : string)
| RequestsGet (url : string) (timeout : option Z)
| ResponseJson (body : string)
| ChatCompletionCreate (model : string) (fields : list dict) (row : value)
| JsonLoads (text : string)
| SyncPlaywrightEnter
| SyncPlaywrightExit
| ChromiumLaunch (headless : bool)
| BrowserNewPage
| PageSetDefaultTimeout (ms : Z)
| PageGoto (url : string)
| PageWaitForLoadState (state : string)
| PageGetByRole (role name : string)
| LocatorCount
| LocatorFirstClick (timeout : Z)
| LocatorFirstElementHandle
| PageEvaluateClick
| PageWaitForTimeout (ms : Z)
| KeyboardPress (key : string)
| KeyboardType (text : string)
| NamedTemporaryFile
| FileWrite (name data : string)
| FileClose (name : string)
| PageLocator (selector : string)
| LocatorSetInputFiles (path : string)
| PageWaitForSelector (selector : string) (timeout : Z)
| BrowserClose.

(** What each call hands back when it does not raise. *)
Definition ans (c : call) : Type :=
  match c with
  | SupabaseSelect _ _ => list value
  | RequestsGet _ _ => response
  | ResponseJson _ => value
  | ChatCompletionCreate _ _ _ => string
  | JsonLoads _ => value
  | LocatorCount => Z
  | LocatorFirstElementHandle => bool
  | NamedTemporaryFile => string
  | _ => unit
  end.

(** The lines the script prints, by content. *)
Inductive message : Type :=
| MsgStep1
| MsgFieldsError (e : exn)
| MsgStep2
| MsgStep4
| MsgHandling (position : nat) (q_type q_ref : value)
| MsgUploaded (file_path : string)
| MsgUnknownType (q_type : value)
| MsgFieldException (q_ref : value) (e : exn)
| MsgAttemptSubmit
| MsgThankYou
| MsgNoThankYou
| MsgSubmitRaised (e : exn)
| MsgDone
| MsgMapping (mapping : value).

(** [time.sleep]: a fixed pause, or one drawn by [random.uniform]; in
    milliseconds. *)
Inductive pause : Type :=
| Millis (ms : Z)
| Uniform (lo hi : Z).

Inductive event : Type :=
| Called (c : call) (r : outcome (ans c))
| Printed (m : message)
| Slept (p : pause).

(** A world fixes how every call ends given what happened so far, and what
    the interpreter and the process decide before the script runs: [repr]
    on strings, the builtins that consult the Unicode tables and the limit
    on conversions, and the placeholder path, which the script computes from
    the working directory. *)
Record world : Type := {
  respond : list event -> forall c : call, outcome (ans c);
  repr_str : string -> string;
  python : interpreter;
  PITCH_DECK_PATH : string
}.

(** ** Computations: read the world and the history, return or raise, and
    report the events added to the history *)

Definition M (A : Type) : Type := world -> list event -> outcome A * list event.

Definition ret {A} (a : A) : M A := fun _ _ => (Ok a, []).

Definition bind {A B} (m : M A) (k : A -> M B) : M B :=
  fun w h =>
    match m w h with
    | (Ok a, t) => match k a w (h ++ t)%list with (r, t') => (r, (t ++ t')%list) end
    | (Raise e, t) => (Raise e, t)
    end.

Notation "x <- m ;; k" := (bind m (fun x => k))
  (at level 61, m at next level, right associativity).
Notation "m ;; k" := (bind m (fun _ => k))
  (at level 61, right associativity).

(** A pure computation that may raise. *)
Definition lift {A} (o : outcome A) : M A := fun _ _ => (o, []).

(** [try: m  except Exception as e: handler e] *)
Definition try_except {A} (m : M A) (handler : exn -> M A) : M A :=
  fun w h =>
    match m w h with
    | (Ok a, t) => (Ok a, t)
    | (Raise e, t) => match handler e w (h ++ t)%list with (r, t') => (r, (t ++ t')%list) end
    end.

(** [with cm: m], for a context manager whose exit does not swallow
    exceptions: the exit runs however [m] ends, and an exception of the exit
    replaces the outcome. *)
Definition with_cm {A} (enter exit : M unit) (m : M A) : M A :=
  enter ;;
  fun w h =>
    match m w h with
    | (r, t) =>
        match exit w (h ++ t)%list with
        | (Ok _, t') => (r, (t ++ t')%list)
        | (Raise e, t') => (Raise e, (t ++ t')%list)
        end
    end.

Definition perform (c : call) : M (ans c) :=
  fun w h => let r := respond w h c in (r, [Called c r]).

Definition print (m : message) : M unit := fun _ _ => (Ok tt, [Printed m]).

Definition sleep (p : pause) : M unit := fun _ _ => (Ok tt, [Slept p]).

Definition ask : M world := fun w _ => (Ok w, []).

(** [for x in l: body x] *)
Fixpoint for_each {A} (l : list A) (body : A -> M unit) : M unit :=
  match l with
  | [] => ret tt
  | x :: rest => body x ;; for_each rest body
  end.

(** Outcome and events of a computation started after history [h]. *)
Definition result {A} (m : M A) (w : world) (h : list event) : outcome A := fst (m w h).
Definition events {A} (m : M A) (w : world) (h : list event) : list event := snd (m w h).

(** The calls among the events, in order. *)
Definition calls (t : list event) : list call :=
  flat_map (fun e => match e with Called c _ => [c] | _ => [] end) t.

(** A call on [page.keyboard]. *)
Definition is_keyboard (c : call) : bool :=
  match c with KeyboardPress _ | KeyboardType _ => true | _ => false end.

(** The keyboard calls among the events, in order. *)
Definition keyboard (t : list event) : list call := filter is_keyboard (calls t).

(** The lines printed, in order. *)
Definition printed (t : list event) : list message :=
  flat_map (fun e => match e with Printed m => [m] | _ => [] end) t.

(** ** The script *)

(** The character [chr(34)], for selectors that quote a value. *)
Definition dquote : string := String (ascii_of_nat 34) "".

(** The selector of the form's file input: [input[type=] followed by the
    quoted word [file] and a closing bracket. *)
Definition file_input : string := "input[type=" ++ dquote ++ "file" ++ dquote ++ "]".

Definition TYPEFORM_FORM_ID : string := "qedCsWYt".
Definition TYPEFORM_URL : string := "https://form.typeform.com/to/" ++ TYPEFORM_FORM_ID.
Definition HEADLESS : bool := false.

Definition get_rows : M (list value) :=
  perform (SupabaseSelect "form_submissions" "*").

(** One entry of the list [get_form_fields] builds: the dictionary display
    with keys [ref], [title], [type] and [options], evaluated left to right. *)
Definition field_entry (f : value) : outcome dict :=
  let? r := dict_get f (VStr "ref") VNone in
  let? t := dict_get f (VStr "title") VNone in
  let? ty := dict_get f (VStr "type") VNone in
  let? ty' := dict_get f (VStr "type") VNone in
  let? opts :=
    if in_strs ty' ["multiple_choice"; "picture_choice"] then
      let? props := dict_get f (VStr "properties") (VDict []) in
      let? choices := dict_get props (VStr "choices") (VList []) in
      let? cs := py_iter choices in
      map_outcome (fun c => dict_get c (VStr "label") VNone) cs
    else Ok []
  in
  Ok [("ref", r); ("title", t); ("type", ty); ("options", VList opts)].

(** The loop over [form_data.get("fields", [])]. *)
Definition collect_fields (form_data : value) : outcome (list dict) :=
  let? fs := dict_get form_data (VStr "fields") (VList []) in
  let? items := py_iter fs in
  map_outcome field_entry items.

(** The body of the [try] of [get_form_fields]. *)
Definition fetch_fields (form_id : string) : M (list dict) :=
  let api_url := "https://api.typeform.com/forms/" ++ form_id in
  resp <- perform (RequestsGet api_url (Some 15%Z)) ;;
  lift (raise_for_status resp) ;;
  form_data <- perform (ResponseJson (content resp)) ;;
  lift (collect_fields form_data).

Definition get_form_fields (form_id : string) : M (list dict) :=
  print MsgStep1 ;;
  try_except (fetch_fields form_id)
             (fun e => print (MsgFieldsError e) ;; ret []).

(** The prompt is a function of [fields] and [row]; the reply's content is
    handed to [json.loads]. *)
Definition map_row_to_typeform (fields : list dict) (row : value) (model : string)
  : M value :=
  print MsgStep2 ;;
  reply <- perform (ChatCompletionCreate model fields row) ;;
  perform (JsonLoads reply).

(** The block that clicks a start button if there is one. *)
Definition click_start : M unit :=
  try_except
    (perform (PageGetByRole "button" "Start") ;;
     n <- perform LocatorCount ;;
     if (0 <? n)%Z then
       try_except
         (perform (LocatorFirstClick 8000) ;;
          perform (PageWaitForTimeout 700))
         (fun _ =>
            try_except
              (eh <- perform LocatorFirstElementHandle ;;
               if eh : bool then
                 perform PageEvaluateClick ;;
                 perform (PageWaitForTimeout 700)
               else ret tt)
              (fun _ => ret tt))
     else ret tt)
    (fun _ => ret tt).

Definition safe_press_enter : M unit :=
  try_except
    (perform (KeyboardPress "Enter") ;;
     sleep (Millis 2000))
    (fun _ => ret tt).

(** [answers.get(field.get("title")) or answers.get(q_ref)] *)
Definition provided_answer (answers : value) (field : dict) (q_ref : value)
  : outcome value :=
  let? by_title := dict_get answers (get field "title" VNone) VNone in
  if truthy by_title then Ok by_title
  else dict_get answers q_ref VNone.

Definition free_text_types : list string :=
  ["short_text"; "email"; "number"; "website"; "text"; "long_text"].

Definition choice_types : list string :=
  ["multiple_choice"; "picture_choice"; "checkboxes"].

(** The body of the loop over the comma-separated keys. *)
Definition press_choice (i : interpreter) (key : string) : M unit :=
  let key := str_lower i key in
  key <- (if str_isdigit i key then
            n <- lift (py_int i (VStr key)) ;;
            lift (chr (n + ord_a))
          else ret key) ;;
  perform (KeyboardPress key) ;;
  sleep (Millis 300).

(** [provided_answer.startswith(prefix)] *)
Definition startswith_method (v : value) (prefix : string) : outcome bool :=
  match v with
  | VStr s => Ok (startswith prefix s)
  | _ => Raise AttributeError
  end.

(** The body of the [try] inside the loop of [fill_and_submit_form]: the
    interaction chosen by the field's type. *)
Definition field_interaction (q_type provided_answer : value) : M unit :=
  (if in_strs q_type free_text_types then
     w <- ask ;;
     let answer := if truthy provided_answer
                   then py_str (repr_str w) provided_answer
                   else "N/A" in
     perform (KeyboardType answer) ;;
     sleep (Millis 500) ;;
     safe_press_enter
   else if in_strs q_type choice_types then
     (if is_not_none provided_answer then
        w <- ask ;;
        let ans_str := py_str (repr_str w) provided_answer in
        for_each (split "," (remove_spaces ans_str)) (press_choice (python w))
      else ret tt) ;;
     sleep (Millis 500) ;;
     safe_press_enter
   else if eq_str q_type "dropdown" then
     perform (KeyboardPress "Tab") ;;
     sleep (Millis 2000) ;;
     safe_press_enter ;;
     sleep (Millis 2000) ;;
     (if truthy provided_answer then
        w <- ask ;;
        let index := match py_int (python w) provided_answer with
                     | Ok n => n
                     | Raise _ => 1%Z
                     end in
        for_each (py_range index)
                 (fun _ => perform (KeyboardPress "ArrowDown") ;;
                           sleep (Millis 300))
      else ret tt) ;;
     sleep (Millis 500) ;;
     safe_press_enter
   else if eq_str q_type "file_upload" then
     w <- ask ;;
     is_url <- (if truthy provided_answer
                then lift (startswith_method provided_answer "http")
                else ret false) ;;
     file_path <- (if is_url : bool then
                     resp <- perform (RequestsGet (py_str (repr_str w) provided_answer) None) ;;
                     lift (raise_for_status resp) ;;
                     tmp_file <- perform NamedTemporaryFile ;;
                     perform (FileWrite tmp_file (content resp)) ;;
                     perform (FileClose tmp_file) ;;
                     ret tmp_file
                   else ret (PITCH_DECK_PATH w)) ;;
     perform (PageLocator file_input) ;;
     perform (LocatorSetInputFiles file_path) ;;
     print (MsgUploaded file_path) ;;
     sleep (Millis 6000) ;;
     safe_press_enter
   else
     print (MsgUnknownType q_type) ;;
     safe_press_enter) ;;
  sleep (Uniform 800 1500).

(** The [try] statement inside the loop. *)
Definition handle_field (q_type q_ref provided_answer : value) : M unit :=
  try_except
    (field_interaction q_type provided_answer)
    (fun e =>
       print (MsgFieldException q_ref e) ;;
       safe_press_enter).

(** One turn of the loop over [enumerate(fields)]. *)
Definition visit_field (answers : value) (entry : nat * dict) : M unit :=
  let (idx, field) := entry in
  sleep (Millis 1000) ;;
  perform (PageWaitForTimeout 500) ;;
  let q_type := get field "type" (VStr "") in
  let q_ref := get field "ref" VNone in
  provided <- lift (provided_answer answers field q_ref) ;;
  print (MsgHandling (idx + 1) q_type q_ref) ;;
  sleep (Uniform 600 1400) ;;
  handle_field q_type q_ref provided.

(** The final submission block. *)
Definition final_submission : M unit :=
  print MsgAttemptSubmit ;;
  try_except
    (perform (KeyboardPress "Control+Enter") ;;
     try_except
       (perform (PageWaitForSelector "text=Thank you" 20000) ;;
        print MsgThankYou)
       (fun _ => print MsgNoThankYou))
    (fun e => print (MsgSubmitRaised e)).

Definition fill_and_submit_form (url : string) (fields : list dict) (answers : value)
  : M unit :=
  print MsgStep4 ;;
  with_cm (perform SyncPlaywrightEnter) (perform SyncPlaywrightExit)
    (perform (ChromiumLaunch HEADLESS) ;;
     perform BrowserNewPage ;;
     perform (PageSetDefaultTimeout 25000) ;;
     perform (PageGoto url) ;;
     perform (PageWaitForLoadState "networkidle") ;;
     click_start ;;
     for_each (enumerate fields) (visit_field answers) ;;
     final_submission ;;
     perform BrowserClose ;;
     print MsgDone).

(** The body of the loop over the rows. *)
Definition process_row (fields : list dict) (row : value) : M unit :=
  mapping <- map_row_to_typeform fields row "gpt-5" ;;
  print (MsgMapping mapping) ;;
  fill_and_submit_form TYPEFORM_URL fields mapping.

(** The script's entry point. *)
Definition main : M unit :=
  rows <- get_rows ;;
  fields <- get_form_fields TYPEFORM_FORM_ID ;;
  for_each rows (process_row fields).

(** ** What the properties speak about *)

(** The keys as the specification words them: split on commas, spaces
    removed, letters lowercased; an all-digit token [n] becomes the
    character [chr(ord('a') + n)], any other token is the key itself. *)
Definition choice_tokens (i : interpreter) (ans_str : string) : list string :=
  map (str_lower i) (split "," (remove_spaces ans_str)).

(** The key of one token.  The conversion of an all-digit token raises
    [ValueError] when [int] refuses the token (more digits than the limit
    allows, a digit such as a superscript that has no decimal value) and
    when the number is beyond the range of [chr]. *)
Definition key_of_token (i : interpreter) (token : string) : outcome string :=
  if str_isdigit i token then
    let? n := py_int i (VStr token) in
    chr (n + ord_a)
  else Ok token.

(** The keys of an answer, when every token has one. *)
Definition choice_keys (i : interpreter) (ans_str : string) : outcome (list string) :=
  map_outcome (key_of_token i) (choice_tokens i ans_str).

(** The keys of the tokens that come before the first token whose
    conversion raises; the keys of all the tokens when none does. *)
Fixpoint keys_until_failure (i : interpreter) (tokens : list string) : list string :=
  match tokens with
  | [] => []
  | token :: rest =>
      match key_of_token i token with
      | Ok key => key :: keys_until_failure i rest
      | Raise _ => []
      end
  end.

(** The presses of a key among the events, in order, each with whether the
    browser accepted it. *)
Definition presses (t : list event) : list (string * bool) :=
  flat_map (fun e =>
              match e with
              | Called c r =>
                  match c return outcome (ans c) -> list (string * bool) with
                  | KeyboardPress key => fun r' => [(key, is_ok r')]
                  | _ => fun _ => []
                  end r
              | _ => []
              end) t.

(** The presses of keys that the browser all accepted. *)
Definition accepted (keys : list string) : list (string * bool) :=
  map (fun key => (key, true)) keys.

(** What a successful pass through the loop over the keys adds to the
    history. *)
Definition press_events (key : string) : list event :=
  [Called (KeyboardPress key) (Ok tt); Slept (Millis 300)].

(** The index the dropdown branch computes: [int(answer)], or 1 when the
    conversion raises. *)
Definition dropdown_index (i : interpreter) (v : value) : Z :=
  match py_int i v with Ok n => n | Raise _ => 1%Z end.

(** The call [page.keyboard.press("ArrowDown")]. *)
Definition is_arrow_down (c : call) : bool :=
  match c with KeyboardPress key => String.eqb key "ArrowDown" | _ => false end.

(** How many times ArrowDown was pressed. *)
Definition arrow_downs (t : list event) : nat :=
  length (filter is_arrow_down (calls t)).

(** What one turn of the loop does before the [try]. *)
Definition visit_prefix (idx : nat) (field : dict) : list event :=
  [Slept (Millis 1000); Called (PageWaitForTimeout 500) (Ok tt);
   Printed (MsgHandling (idx + 1) (get field "type" (VStr "")) (get field "ref" VNone));
   Slept (Uniform 600 1400)].

(** A request to the completion service. *)
Definition is_completion (c : call) : bool :=
  match c with ChatCompletionCreate _ _ _ => true | _ => false end.

(** The fields announced by the loop, in order: position, type, reference. *)
Definition visited (t : list event) : list (nat * value * value) :=
  flat_map (fun m => match m with
                     | MsgHandling position q_type q_ref => [(position, q_type, q_ref)]
                     | _ => []
                     end)
           (printed t).

(** What the loop should announce for a list of fields. *)
Definition announced (entries : list (nat * dict)) : list (nat * value * value) :=
  map (fun entry : nat * dict =>
         let (idx, field) := entry in
         ((idx + 1)%nat, get field "type" (VStr ""), get field "ref" VNone))
      entries.

(** A computation that announces no field. *)
Definition quiet {A} (m : M A) : Prop := forall w h, visited (events m w h) = [].

(** The last two steps of the body of [fill_and_submit_form]. *)
Definition close_and_report : M unit := perform BrowserClose ;; print MsgDone.

(** The part of [fill_and_submit_form] inside the [with] statement. *)
Definition session (url : string) (fields : list dict) (answers : value) : M unit :=
  perform (ChromiumLaunch HEADLESS) ;;
  perform BrowserNewPage ;;
  perform (PageSetDefaultTimeout 25000) ;;
  perform (PageGoto url) ;;
  perform (PageWaitForLoadState "networkidle") ;;
  click_start ;;
  for_each (enumerate fields) (visit_field answers) ;;
  final_submission ;;
  close_and_report.

(** ** What the further properties speak about *)

(** The label of one choice, as [c.get("label")] reads it off a dictionary. *)
Definition label_of (c : value) : value :=
  match c with VDict entries => get entries "label" VNone | _ => VNone end.

(** The request [get_form_fields] sends for a form. *)
Definition form_request (form_id : string) : call :=
  RequestsGet ("https://api.typeform.com/forms/" ++ form_id) (Some 15%Z).

(** The two calls of the final submission. *)
Definition submit_key : call := KeyboardPress "Control+Enter".
Definition thank_you_wait : call := PageWaitForSelector "text=Thank you" 20000.

(** The calls of [fill_and_submit_form] that no [try] guards, up to the
    start-button block. *)
Definition setup_calls (url : string) : list call :=
  [SyncPlaywrightEnter; ChromiumLaunch HEADLESS; BrowserNewPage;
   PageSetDefaultTimeout 25000; PageGoto url; PageWaitForLoadState "networkidle"].

(** A world in which these calls never raise. *)
Definition setup_succeeds (w : world) (url : string) : Prop :=
  forall h c, In c (setup_calls url) -> is_ok (respond w h c) = true.

(** The read of the table. *)
Definition select_rows : call := SupabaseSelect "form_submissions" "*".

(** The number of commas of a string. *)
Definition commas (s : string) : nat :=
  length (filter (Ascii.eqb ",") (list_ascii_of_string s)).

(** ** Worlds to run the script in *)

(** Data a scripted world serves: the rows of the table, the form
    description the Typeform API returns, the answers the completion
    service's reply parses to. *)
Record canned : Type := {
  c_rows : list value;
  c_form : value;
  c_mapping : value
}.

Definition served (d : canned) (c : call) : ans c :=
  match c with
  | SupabaseSelect _ _ => c_rows d
  | RequestsGet _ _ => {| status_code := 200; content := "body" |}
  | ResponseJson _ => c_form d
  | ChatCompletionCreate _ _ _ => "reply"
  | JsonLoads _ => c_mapping d
  | LocatorCount => 1%Z
  | LocatorFirstElementHandle => true
  | NamedTemporaryFile => "/tmp/tmpa1b2c3"
  | _ => tt
  end.

(** [repr] on a string without quotes, backslashes or control characters. *)
Definition repr_plain (s : string) : string := "'" ++ s ++ "'".

(** Three strings that are not ASCII, by their UTF-8 bytes: the superscript
    two (U+00B2), the Arabic-Indic digit three (U+0663) and the capital E
    with an acute accent (U+00C9), and the small one (U+00E9). *)
Definition superscript_two : string :=
  String (ascii_of_nat 194) (String (ascii_of_nat 178) "").
Definition arabic_three : string :=
  String (ascii_of_nat 217) (String (ascii_of_nat 163) "").
Definition capital_e_acute : string :=
  String (ascii_of_nat 195) (String (ascii_of_nat 137) "").
Definition small_e_acute : string :=
  String (ascii_of_nat 195) (String (ascii_of_nat 169) "").

(** The interpreter of the runs below, with the usual limit of 4300 digits.
    Of the Unicode tables it has what these runs consult, the strings made
    of one of the characters above: the superscript two is a digit that
    [int] refuses, the Arabic-Indic three is a digit that [int] reads as 3,
    and the capital E with an acute accent has a lowercase. *)
Definition sample_python : interpreter :=
  {| unicode_lower := fun s => if String.eqb s capital_e_acute then small_e_acute else s;
     unicode_isdigit := fun s => String.eqb s superscript_two || String.eqb s arabic_three;
     unicode_int := fun s => if String.eqb s arabic_three then Some 3%Z else None;
     int_max_str_digits := 4300 |}.

(** The world that serves [d] and raises where [fails] says so. *)
Definition scripted (d : canned) (fails : list event -> call -> option exn) : world :=
  {| respond := fun h c => match fails h c with
                           | Some e => Raise e
                           | None => Ok (served d c)
                           end;
     repr_str := repr_plain;
     python := sample_python;
     PITCH_DECK_PATH := "/work/placeholder_deck.pdf" |}.

Definition no_data : canned :=
  {| c_rows := []; c_form := VDict []; c_mapping := VDict [] |}.

(** Every call succeeds. *)
Definition calm : world := scripted no_data (fun _ _ => None).

(** The end-to-end scenario of the specification: one row, two fields. *)
Definition scenario_data : canned :=
  {| c_rows := [VDict [("email", VStr "a@b.com"); ("interest", VStr "networking")]];
     c_form :=
       VDict [("fields",
               VList [VDict [("ref", VStr "r1"); ("title", VStr "Email");
                             ("type", VStr "short_text")];
                      VDict [("ref", VStr "r2"); ("title", VStr "Interest");
                             ("type", VStr "multiple_choice");
                             ("properties",
                              VDict [("choices",
                                      VList [VDict [("label", VStr "networking")];
                                             VDict [("label", VStr "storage")]])])]])];
     c_mapping := VDict [("Email", VStr "a@b.com"); ("Interest", VStr "0")] |}.

Definition scenario : world := scripted scenario_data (fun _ _ => None).

(** The keyboard refuses to type. *)
Definition typing_fails : world :=
  scripted no_data
    (fun _ c => match c with
                | KeyboardType _ => Some (LibraryError "keyboard.type failed")
                | _ => None
                end).

(** The page cannot be reached. *)
Definition navigation_fails : world :=
  scripted no_data
    (fun _ c => match c with
                | PageGoto _ => Some (LibraryError "net::ERR_NAME_NOT_RESOLVED")
                | _ => None
                end).

(** The Typeform API answers 404. *)
Definition form_not_found : world :=
  {| respond := fun h c =>
       match c return outcome (ans c) with
       | RequestsGet _ _ => Ok {| status_code := 404; content := "" |}
       | c' => Ok (served no_data c')
       end;
     repr_str := repr_plain;
     python := sample_python;
     PITCH_DECK_PATH := "/work/placeholder_deck.pdf" |}.

(** The Typeform API cannot be reached. *)
Definition api_unreachable : world :=
  scripted no_data
    (fun _ c => match c with
                | RequestsGet _ _ => Some (LibraryError "ConnectionError")
                | _ => None
                end).

(** Two rows, and a completion service whose reply is not JSON. *)
Definition two_rows : list value :=
  [VDict [("email", VStr "a@b.com")]; VDict [("email", VStr "c@d.com")]].

Definition reply_not_json : world :=
  scripted {| c_rows := two_rows; c_form := c_form scenario_data; c_mapping := VDict [] |}
    (fun _ c => match c with
                | JsonLoads _ => Some (LibraryError "JSONDecodeError")
                | _ => None
                end).

Definition email_field : dict :=
  [("ref", VStr "r1"); ("title", VStr "Email"); ("type", VStr "short_text");
   ("options", VList [])].

Definition interest_field : dict :=
  [("ref", VStr "r2"); ("title", VStr "Interest"); ("type", VStr "multiple_choice");
   ("options", VList [VStr "networking"; VStr "storage"])].

(** An Answer Map that holds the number 0 under the reference id of the
    second field and nothing under its title. *)
Definition zero_by_reference : value := VDict [("r2", VInt 0)].

(** A checkboxes question as the Typeform API describes it, with two
    choices. *)
Definition raw_checkboxes : dict :=
  [("ref", VStr "r4"); ("title", VStr "Topics"); ("type", VStr "checkboxes");
   ("properties",
    VDict [("choices", VList [VDict [("label", VStr "storage")];
                              VDict [("label", VStr "compute")]])])].

(** A form description whose second entry is not a dictionary. *)
Definition broken_form : value :=
  VDict [("fields", VList [VDict [("ref", VStr "r1"); ("title", VStr "Email");
                                  ("type", VStr "short_text")];
                           VStr "oops"])].

Definition broken_schema : world :=
  scripted {| c_rows := []; c_form := broken_form; c_mapping := VDict [] |}
           (fun _ _ => None).

(** The start button cannot be clicked the normal way. *)
Definition click_intercepted : world :=
  scripted no_data
    (fun _ c => match c with
                | LocatorFirstClick _ => Some (LibraryError "click intercepted")
                | _ => None
                end).

(** The page never shows the acknowledgment. *)
Definition no_thank_you : world :=
  scripted no_data
    (fun _ c => match c with
                | PageWaitForSelector _ _ => Some (LibraryError "TimeoutError")
                | _ => None
                end).

(** The keyboard accepts the key "a" and refuses every other key. *)
Definition only_key_a : world :=
  scripted no_data
    (fun _ c => match c with
                | KeyboardPress key =>
                    if String.eqb key "a" then None
                    else Some (LibraryError "Unknown key")
                | _ => None
                end).

(** The keyboard refuses the key ArrowDown and accepts every other key. *)
Definition arrow_down_refused : world :=
  scripted no_data
    (fun _ c => match c with
                | KeyboardPress key =>
                    if String.eqb key "ArrowDown" then Some (LibraryError "Unknown key")
                    else None
                | _ => None
                end).

(** Downloads are answered with status 404. *)
Definition download_not_found : world :=
  {| respond := fun h c =>
       match c return outcome (ans c) with
       | RequestsGet _ _ => Ok {| status_code := 404; content := "" |}
       | c' => Ok (served no_data c')
       end;
     repr_str := repr_plain;
     python := sample_python;
     PITCH_DECK_PATH := "/work/placeholder_deck.pdf" |}.

(** The table store cannot be reached. *)
Definition table_unreachable : world :=
  scripted no_data
    (fun _ c => match c with
                | SupabaseSelect _ _ => Some (LibraryError "APIError")
                | _ => None
                end).

(** The completion service cannot be reached. *)
Definition completion_unreachable : world :=
  scripted no_data
    (fun _ c => match c with
                | ChatCompletionCreate _ _ _ => Some (LibraryError "RateLimitError")
                | _ => None
                end).

(** A string of [n] zeros. *)
Definition zeros (n : nat) : string := string_of_list_ascii (repeat "0"%char n).

(** ** Runs *)

Example str_of_Z_samples :
  (str_of_Z 0, str_of_Z 42, str_of_Z (-7)) = ("0", "42", "-7").
Proof. reflexivity. Qed.

Example split_samples :
  (split "," "0,2", split "," "", split "," "a,,b,")
  = (["0"; "2"], [""], ["a"; ""; "b"; ""]).
Proof. reflexivity. Qed.

Example int_of_string_samples :
  map int_of_string ["3"; " 12 "; "-2"; "+7"; "1_000"; "007"; "3.0"; ""; "_1"; "1__0"; "1_"; "- 3"; "abc"]
  = [Some 3; Some 12; Some (-2); Some 7; Some 1000; Some 7; None; None; None; None; None; None; None]%Z.
Proof. reflexivity. Qed.

(** [int] skips the characters 9 to 13 and the space, not the separators
    28 to 31, and refuses a string of more digits than the limit allows. *)
Example str_int_samples :
  map (str_int sample_python)
      [String (ascii_of_nat 9) "3"; String (ascii_of_nat 28) "3";
       String (ascii_of_nat 31) "3"; zeros 4300; zeros 4301;
       superscript_two; arabic_three]
  = [Some 3; None; None; Some 0; None; None; Some 3]%Z.
Proof. vm_compute. reflexivity. Qed.

Example chr_samples :
  (chr (0 + ord_a), chr (2 + ord_a), chr (25 + ord_a), chr 1114112)
  = (Ok "a", Ok "c", Ok "z", Raise ValueError).
Proof. reflexivity. Qed.

Example scenario_fields :
  result (get_form_fields TYPEFORM_FORM_ID) scenario [] = Ok [email_field; interest_field].
Proof. reflexivity. Qed.

Example scenario_keyboard :
  keyboard (events main scenario [])
  = [KeyboardType "a@b.com"; KeyboardPress "Enter";
     KeyboardPress "a"; KeyboardPress "Enter";
     KeyboardPress "Control+Enter"].
Proof. reflexivity. Qed.

Example scenario_calls :
  calls (events (fill_and_submit_form TYPEFORM_URL [email_field] (c_mapping scenario_data))
                scenario [])
  = [SyncPlaywrightEnter; ChromiumLaunch false; BrowserNewPage;
     PageSetDefaultTimeout 25000;
     PageGoto "https://form.typeform.com/to/qedCsWYt";
     PageWaitForLoadState "networkidle";
     PageGetByRole "button" "Start"; LocatorCount; LocatorFirstClick 8000;
     PageWaitForTimeout 700;
     PageWaitForTimeout 500; KeyboardType "a@b.com"; KeyboardPress "Enter";
     KeyboardPress "Control+Enter"; PageWaitForSelector "text=Thank you" 20000;
     BrowserClose; SyncPlaywrightExit].
Proof. reflexivity. Qed.

(** A superscript two is a digit without a decimal value: its conversion
    raises and ends the keys; an Arabic-Indic three is pressed as "d"; a
    capital E with an acute accent is pressed as the small one. *)
Example unicode_choice_keys :
  (keyboard (events (handle_field (VStr "checkboxes") (VStr "r4")
                                  (VStr ("0," ++ superscript_two ++ ",1"))) calm []),
   keyboard (events (handle_field (VStr "checkboxes") (VStr "r4")
                                  (VStr ("0," ++ arabic_three ++ ",1"))) calm []),
   keyboard (events (handle_field (VStr "checkboxes") (VStr "r4")
                                  (VStr capital_e_acute)) calm []))
  = ([KeyboardPress "a"; KeyboardPress "Enter"],
     [KeyboardPress "a"; KeyboardPress "d"; KeyboardPress "b"; KeyboardPress "Enter"],
     [KeyboardPress small_e_acute; KeyboardPress "Enter"]).
Proof. vm_compute. reflexivity. Qed.

(** A dropdown answer of 4301 zeros is beyond the limit: the conversion
    raises and the index is 1; with 4300 zeros the index is 0. *)
Example long_dropdown_answers :
  (arrow_downs (events (handle_field (VStr "dropdown") (VStr "r3") (VStr (zeros 4301)))
                       calm []),
   arrow_downs (events (handle_field (VStr "dropdown") (VStr "r3") (VStr (zeros 4300)))
                       calm []),
   arrow_downs (events (handle_field (VStr "dropdown") (VStr "r3") (VStr arabic_three))
                       calm []))
  = (1, 0, 3)%nat.
Proof. vm_compute. reflexivity. Qed.

(** The presses of a run in which the browser refuses the key "b". *)
Example refused_key_presses :
  presses (events (handle_field (VStr "checkboxes") (VStr "r4") (VStr "0,1,2"))
                  only_key_a [])
  = [("a", true); ("b", false); ("Enter", false)].
Proof. reflexivity. Qed.

Example form_not_found_fields :
  get_form_fields "nope" form_not_found []
  = (Ok [], [Printed MsgStep1;
             Called (RequestsGet "https://api.typeform.com/forms/nope" (Some 15%Z))
                    (Ok {| status_code := 404; content := "" |});
             Printed (MsgFieldsError (HTTPError 404))]).
Proof. reflexivity. Qed.

(** ** Laws of the computations *)

Local Open Scope list_scope.

Arguments calls : simpl never.
Arguments keyboard : simpl never.
Arguments printed : simpl never.

Section Laws.
Context {A B : Type}.
Variables (w : world) (h : list event).

Lemma bind_ok (m : M A) (k : A -> M B) a :
  result m w h = Ok a ->
  result (bind m k) w h = result (k a) w (h ++ events m w h)
  /\ events (bind m k) w h = events m w h ++ events (k a) w (h ++ events m w h).
Proof.
  unfold result, events, bind. destruct (m w h) as [r t]; cbn.
  intros ->. destruct (k a w (h ++ t)); cbn; auto.
Qed.

Lemma bind_raise (m : M A) (k : A -> M B) e :
  result m w h = Raise e ->
  result (bind m k) w h = Raise e /\ events (bind m k) w h = events m w h.
Proof.
  unfold result, events, bind. destruct (m w h) as [r t]; cbn.
  intros ->. cbn; auto.
Qed.

Lemma try_except_ok (m : M A) (handler : exn -> M A) a :
  result m w h = Ok a ->
  result (try_except m handler) w h = Ok a
  /\ events (try_except m handler) w h = events m w h.
Proof.
  unfold result, events, try_except. destruct (m w h) as [r t]; cbn.
  intros ->. cbn; auto.
Qed.

Lemma try_except_raise (m : M A) (handler : exn -> M A) e :
  result m w h = Raise e ->
  result (try_except m handler) w h = result (handler e) w (h ++ events m w h)
  /\ events (try_except m handler) w h
     = events m w h ++ events (handler e) w (h ++ events m w h).
Proof.
  unfold result, events, try_except. destruct (m w h) as [r t]; cbn.
  intros ->. destruct (handler e w (h ++ t)); cbn; auto.
Qed.
End Laws.

Lemma calls_app t1 t2 : calls (t1 ++ t2) = calls t1 ++ calls t2.
Proof. unfold calls. now rewrite flat_map_app. Qed.

Lemma keyboard_app t1 t2 : keyboard (t1 ++ t2) = keyboard t1 ++ keyboard t2.
Proof. unfold keyboard. now rewrite calls_app, filter_app. Qed.

Lemma printed_app t1 t2 : printed (t1 ++ t2) = printed t1 ++ printed t2.
Proof. unfold printed. now rewrite flat_map_app. Qed.

Lemma calls_Called c r t : calls (Called c r :: t) = c :: calls t.
Proof. reflexivity. Qed.

Lemma calls_Printed m t : calls (Printed m :: t) = calls t.
Proof. reflexivity. Qed.

Lemma calls_Slept p t : calls (Slept p :: t) = calls t.
Proof. reflexivity. Qed.

Lemma keyboard_Called c r t :
  keyboard (Called c r :: t) = if is_keyboard c then c :: keyboard t else keyboard t.
Proof. reflexivity. Qed.

Lemma keyboard_Printed m t : keyboard (Printed m :: t) = keyboard t.
Proof. reflexivity. Qed.

Lemma keyboard_Slept p t : keyboard (Slept p :: t) = keyboard t.
Proof. reflexivity. Qed.

Lemma printed_Called c r t : printed (Called c r :: t) = printed t.
Proof. reflexivity. Qed.

Lemma printed_Printed m t : printed (Printed m :: t) = m :: printed t.
Proof. reflexivity. Qed.

Lemma printed_Slept p t : printed (Slept p :: t) = printed t.
Proof. reflexivity. Qed.

Lemma calls_nil : calls [] = [].
Proof. reflexivity. Qed.

Lemma keyboard_nil : keyboard [] = [].
Proof. reflexivity. Qed.

Lemma printed_nil : printed [] = [].
Proof. reflexivity. Qed.

Create Rewrite HintDb trace.

#[local] Hint Rewrite calls_app calls_Called calls_Printed calls_Slept calls_nil
  keyboard_app keyboard_Called keyboard_Printed keyboard_Slept keyboard_nil
  printed_app printed_Called printed_Printed printed_Slept printed_nil
  app_nil_r : trace.

(** Push a projection of the trace through the events that are known. *)
Ltac project := autorewrite with trace; cbn [is_keyboard].

(** ** Facts about the builtins *)

Lemma in_strs_In t l : in_strs (VStr t) l = true <-> In t l.
Proof.
  unfold in_strs. rewrite existsb_exists. split.
  - intros (s & Hs & E). cbn in E. apply String.eqb_eq in E. now subst.
  - intros Ht. exists t. split; [assumption|]. cbn. apply String.eqb_refl.
Qed.

Lemma str_of_Z_nonempty n : str_of_Z n <> "".
Proof.
  unfold str_of_Z. destruct (Z.to_int n) as [d|d]; cbn; [|discriminate].
  destruct d; cbn; discriminate.
Qed.

Lemma py_str_nonempty rs v : truthy v = true -> py_str rs v <> "".
Proof.
  destruct v as [|b|n|s|items|entries]; cbn; intros Hv; try discriminate.
  - now subst b.
  - apply str_of_Z_nonempty.
  - intros E. subst s. discriminate.
Qed.

(** [safe_press_enter] swallows whatever the key press raises and presses
    the key once. *)
Lemma safe_press_enter_spec w h :
  result safe_press_enter w h = Ok tt
  /\ keyboard (events safe_press_enter w h) = [KeyboardPress "Enter"]
  /\ printed (events safe_press_enter w h) = [].
Proof.
  unfold result, events, safe_press_enter, try_except, bind, perform, sleep, ret.
  cbn. destruct (respond w h (KeyboardPress "Enter")) as [[]|e]; cbn; auto.
Qed.

(** Unfolding a straight-line computation down to the world's replies, and
    case analysis on every reply that is left. *)
Ltac unfold_run :=
  unfold result, events, try_except, with_cm, bind, ask, lift, safe_press_enter,
    try_except, bind, perform, sleep, print, ret.

Ltac reduce_run := repeat (progress (unfold_run; cbn)).

Ltac crank :=
  repeat (reduce_run;
          match goal with
          | |- context [respond ?w ?h ?c] =>
              let r := fresh "r" in
              destruct (respond w h c) as [r|?]; try destruct r
          end);
  reduce_run.

(** The free-text branch in any world: the field does not raise, and the
    keyboard sees the answer typed once and Enter pressed once. *)
Lemma free_text_keyboard (w : world) (h : list event) (t : string) (q_ref v : value) :
  In t free_text_types ->
  let answer := if truthy v then py_str (repr_str w) v else "N/A" in
  result (handle_field (VStr t) q_ref v) w h = Ok tt
  /\ keyboard (events (handle_field (VStr t) q_ref v) w h)
     = [KeyboardType answer; KeyboardPress "Enter"].
Proof.
  intros Ht answer. apply in_strs_In in Ht.
  unfold handle_field, field_interaction. rewrite Ht. fold answer.
  unfold_run. crank; auto.
Qed.

(** C1. For a field whose type is one of the free-text types, handling the
    field invokes exactly one keyboard [type] action, with a non-empty
    string that is the stringified answer when an answer is supplied and
    the literal "N/A" otherwise, followed by exactly one press of Enter;
    this holds whatever the browser does, and the field never raises. *)
Theorem free_text_types_answer_then_advances (w : world) (h : list event)
    (t : string) (q_ref v : value) :
  In t free_text_types ->
  let answer := if truthy v then py_str (repr_str w) v else "N/A" in
  answer <> ""
  /\ result (handle_field (VStr t) q_ref v) w h = Ok tt
  /\ keyboard (events (handle_field (VStr t) q_ref v) w h)
     = [KeyboardType answer; KeyboardPress "Enter"].
Proof.
  intros Ht answer. split.
  - subst answer. destruct (truthy v) eqn:Hv; [now apply py_str_nonempty | discriminate].
  - exact (free_text_keyboard w h t q_ref v Ht).
Qed.

Lemma free_text_types_answer_then_advances_witness :
  In "email" free_text_types
  /\ keyboard (events (handle_field (VStr "email") (VStr "r1") (VStr "a@b.com")) typing_fails [])
     = [KeyboardType "a@b.com"; KeyboardPress "Enter"].
Proof.
  assert (H : In "email" free_text_types) by (cbn; tauto).
  split; [exact H|].
  exact (proj2 (proj2 (free_text_types_answer_then_advances
                         typing_fails [] "email" (VStr "r1") (VStr "a@b.com") H))).
Defined.

(** ** Multiple-choice-like fields *)

Lemma digit_not_sign c r :
  is_digit c = true ->
  lstrip (String c r) = String c r
  /\ int_of_string (String c r) = option_map (digits_value 0) (numeral_body 0 (String c r)).
Proof.
  intros Hc. unfold int_of_string.
  assert (Hs : is_space c = false).
  { destruct c as [[] [] [] [] [] [] [] []]; vm_compute in Hc; try discriminate; reflexivity. }
  cbn [lstrip]. rewrite Hs. split; [reflexivity|].
  destruct c as [[] [] [] [] [] [] [] []]; vm_compute in Hc; try discriminate; reflexivity.
Qed.

Lemma numeral_body_digits s :
  forallb is_digit (list_ascii_of_string s) = true -> numeral_body 1 s = Some s.
Proof.
  induction s as [|c r IH]; cbn; [reflexivity|].
  intros H. apply andb_prop in H as [Hc Hr]. rewrite Hc, (IH Hr). reflexivity.
Qed.

Lemma digit_is_ascii c : is_digit c = true -> (code c <? 128)%Z = true.
Proof.
  unfold is_digit. intros H. apply andb_prop in H as [_ H].
  apply Z.leb_le in H. apply Z.ltb_lt. lia.
Qed.

Lemma digits_are_ascii s :
  forallb is_digit (list_ascii_of_string s) = true -> is_ascii s = true.
Proof.
  unfold is_ascii. induction s as [|c r IH]; cbn [list_ascii_of_string forallb]; [reflexivity|].
  intros H. apply andb_prop in H as [Hc Hr]. now rewrite (digit_is_ascii c Hc), (IH Hr).
Qed.

Lemma isdigit_all_digits s :
  isdigit s = true -> forallb is_digit (list_ascii_of_string s) = true.
Proof. destruct s; [discriminate | exact (fun H => H)]. Qed.

(** On an all-digit ASCII token the interpreter's [isdigit] holds, and its
    [int] is the decimal value of the token unless the token has more digits
    than the limit allows. *)
Lemma str_int_digits i s :
  isdigit s = true ->
  str_isdigit i s = true
  /\ str_int i s = if over_limit i s then None else Some (digits_value 0 s).
Proof.
  intros H. pose proof (digits_are_ascii s (isdigit_all_digits s H)) as Ha.
  unfold str_isdigit, str_int. rewrite Ha. split; [exact H|].
  destruct (over_limit i s); [reflexivity|].
  destruct s as [|c r]; [discriminate|].
  cbn in H. apply andb_prop in H as [Hc Hr].
  rewrite (proj2 (digit_not_sign c r Hc)).
  cbn [numeral_body]. rewrite Hc, (numeral_body_digits r Hr). reflexivity.
Qed.

(** One turn of the loop over the keys: the conversion of the token, then,
    when it did not raise, one press of the key. *)
Lemma press_choice_any (w : world) (h : list event) (i : interpreter) (token : string) :
  match key_of_token i (str_lower i token) with
  | Ok key =>
      press_choice i token w h
      = (match respond w (h ++ []) (KeyboardPress key) with
         | Ok _ => Ok tt
         | Raise e => Raise e
         end,
         Called (KeyboardPress key) (respond w (h ++ []) (KeyboardPress key))
           :: if is_ok (respond w (h ++ []) (KeyboardPress key))
              then [Slept (Millis 300)] else [])
  | Raise e => press_choice i token w h = (Raise e, [])
  end.
Proof.
  unfold key_of_token, press_choice. cbv zeta.
  destruct (str_isdigit i (str_lower i token)).
  - unfold and_then. destruct (py_int i (VStr (str_lower i token))) as [n|e]; [|reflexivity].
    destruct (chr (n + ord_a)) as [key|e] eqn:Hc.
    + unfold_run. rewrite Hc. cbn.
      destruct (respond w (h ++ []) (KeyboardPress key)) as [[]|e]; reflexivity.
    + unfold_run. rewrite Hc. reflexivity.
  - unfold_run. cbn.
    destruct (respond w (h ++ []) (KeyboardPress (str_lower i token))) as [[]|e]; reflexivity.
Qed.

(** The loop over the keys in any world: the keys are pressed in order
    until a conversion raises or the browser refuses a key. *)
Lemma press_choices_any (w : world) (i : interpreter) (tokens : list string) : forall h,
  let keys := keys_until_failure i (map (str_lower i) tokens) in
  let t := events (for_each tokens (press_choice i)) w h in
  t = flat_map press_events keys
  \/ exists before key after e,
       keys = before ++ key :: after
       /\ t = flat_map press_events before ++ [Called (KeyboardPress key) (Raise e)].
Proof.
  induction tokens as [|token rest IH]; intros h; cbn [map keys_until_failure for_each].
  - left. reflexivity.
  - pose proof (press_choice_any w h i token) as Hp.
    destruct (key_of_token i (str_lower i token)) as [key|e].
    + cbv zeta. unfold events, bind. rewrite Hp.
      destruct (respond w (h ++ []) (KeyboardPress key)) as [[]|e]; cbn [is_ok].
      * specialize (IH (h ++ [Called (KeyboardPress key) (Ok tt); Slept (Millis 300)])).
        cbv zeta in IH. unfold events in IH.
        destruct (for_each rest (press_choice i) w _) as [r' t']. cbn [fst snd] in *.
        destruct IH as [-> | (before & k & after & e & -> & ->)].
        -- left. reflexivity.
        -- right. exists (key :: before), k, after, e. split; reflexivity.
      * right. exists [], key, (keys_until_failure i (map (str_lower i) rest)), e.
        split; reflexivity.
    + left. cbv zeta. unfold events, bind. rewrite Hp. reflexivity.
Qed.

Section Keyboard_works.
Variable w : world.
Hypothesis keyboard_works : forall h key, respond w h (KeyboardPress key) = Ok tt.

(** With a keyboard that accepts key presses the loop stops only where a
    conversion raises. *)
Lemma press_choices_run (i : interpreter) (tokens : list string) : forall h,
  events (for_each tokens (press_choice i)) w h
  = flat_map press_events (keys_until_failure i (map (str_lower i) tokens)).
Proof.
  induction tokens as [|token rest IH]; intros h; cbn [map keys_until_failure for_each].
  - reflexivity.
  - pose proof (press_choice_any w h i token) as Hp.
    destruct (key_of_token i (str_lower i token)) as [key|e].
    + rewrite keyboard_works in Hp. cbn [is_ok] in Hp.
      unfold events, bind. rewrite Hp.
      specialize (IH (h ++ [Called (KeyboardPress key) (Ok tt); Slept (Millis 300)])).
      unfold events in IH.
      destruct (for_each rest (press_choice i) w _) as [r' t']. cbn [fst snd] in *.
      now rewrite IH.
    + unfold events, bind. rewrite Hp. reflexivity.
Qed.
End Keyboard_works.

Lemma keys_until_failure_all (i : interpreter) (tokens keys : list string) :
  map_outcome (key_of_token i) tokens = Ok keys ->
  keys_until_failure i tokens = keys /\ length keys = length tokens.
Proof.
  revert keys. induction tokens as [|token rest IH]; intros keys;
    cbn [map_outcome keys_until_failure].
  - intros [= <-]. split; reflexivity.
  - unfold and_then. destruct (key_of_token i token) as [key|]; [|discriminate].
    destruct (map_outcome (key_of_token i) rest) as [keys'|]; [|discriminate].
    intros [= <-]. destruct (IH keys' eq_refl) as [-> E]. cbn. now rewrite E.
Qed.

Lemma keyboard_press_events keys :
  keyboard (flat_map press_events keys) = map KeyboardPress keys.
Proof.
  induction keys as [|k ks IH]; [reflexivity|].
  cbn [flat_map]. rewrite keyboard_app, IH. reflexivity.
Qed.

Lemma choice_type_not_free_text t :
  In t choice_types ->
  in_strs (VStr t) free_text_types = false /\ in_strs (VStr t) choice_types = true.
Proof. cbn. intros [<-|[<-|[<-|[]]]]; split; reflexivity. Qed.

(** The multiple-choice branch in any world: what the loop over the keys
    does, then one press of Enter, whether the loop raised or not. *)
Lemma choice_branch_events (w : world) (h : list event) (t : string) (q_ref v : value) :
  In t choice_types ->
  is_not_none v = true ->
  exists (tail : list event) (enter : bool),
    events (handle_field (VStr t) q_ref v) w h
    = events (for_each (split "," (remove_spaces (py_str (repr_str w) v)))
                       (press_choice (python w))) w (h ++ [])
        ++ tail
    /\ keyboard tail = [KeyboardPress "Enter"]
    /\ presses tail = [("Enter", enter)].
Proof.
  intros Ht Hv. destruct (choice_type_not_free_text t Ht) as [Hf Hc].
  unfold handle_field, field_interaction. rewrite Hf, Hc, Hv.
  unfold_run. cbn.
  destruct (for_each _ (press_choice (python w)) w (h ++ [])) as [[[]|e] tk]; cbn [snd].
  - crank; eexists; eexists; (split; [rewrite <- ?app_assoc; cbn [app]; reflexivity |]);
      split; reflexivity.
  - crank; eexists; eexists; (split; [rewrite <- ?app_assoc; cbn [app]; reflexivity |]);
      split; reflexivity.
Qed.

(** The multiple-choice branch when the keyboard accepts key presses. *)
Lemma choice_keyboard_until_failure (w : world) (h : list event) (t : string)
    (q_ref v : value) :
  In t choice_types ->
  (forall h' key, respond w h' (KeyboardPress key) = Ok tt) ->
  is_not_none v = true ->
  keyboard (events (handle_field (VStr t) q_ref v) w h)
  = map KeyboardPress
        (keys_until_failure (python w) (choice_tokens (python w) (py_str (repr_str w) v)))
      ++ [KeyboardPress "Enter"].
Proof.
  intros Ht Hkb Hv.
  destruct (choice_branch_events w h t q_ref v Ht Hv) as (tail & enter & -> & Hk & _).
  rewrite (press_choices_run w Hkb), keyboard_app, keyboard_press_events, Hk. reflexivity.
Qed.

Lemma choice_keyboard (w : world) (h : list event) (t : string) (q_ref v : value)
    (keys : list string) :
  In t choice_types ->
  (forall h' key, respond w h' (KeyboardPress key) = Ok tt) ->
  is_not_none v = true ->
  choice_keys (python w) (py_str (repr_str w) v) = Ok keys ->
  keyboard (events (handle_field (VStr t) q_ref v) w h)
  = map KeyboardPress keys ++ [KeyboardPress "Enter"].
Proof.
  intros Ht Hkb Hv Hkeys. rewrite (choice_keyboard_until_failure w h t q_ref v Ht Hkb Hv).
  now rewrite (proj1 (keys_until_failure_all _ _ _ Hkeys)).
Qed.

(** C2, as the code has it. For a field of type multiple_choice,
    picture_choice or checkboxes and an answer that is not None, in a
    browser that accepts key presses: the stringified answer is split on
    commas, spaces removed, its tokens lowercased, and the keys pressed are
    the keys of the tokens, one per token and in token order, an all-digit
    token [n] giving [chr(ord('a') + n)], up to the first token whose
    conversion raises; the tokens from that one on are abandoned.  Enter is
    pressed once after the keys in every case.  When every token has a key,
    there are as many keys pressed as tokens; the answer "0,2" presses "a",
    then "c", then Enter. *)
Theorem choice_types_press_keys_until_a_conversion_fails (w : world) (h : list event)
    (t : string) (q_ref : value) :
  In t choice_types ->
  (forall h' key, respond w h' (KeyboardPress key) = Ok tt) ->
  (forall v,
      is_not_none v = true ->
      let tokens := choice_tokens (python w) (py_str (repr_str w) v) in
      keyboard (events (handle_field (VStr t) q_ref v) w h)
      = map KeyboardPress (keys_until_failure (python w) tokens) ++ [KeyboardPress "Enter"]
      /\ (forall keys,
             choice_keys (python w) (py_str (repr_str w) v) = Ok keys ->
             keys_until_failure (python w) tokens = keys
             /\ length keys = length tokens))
  /\ keyboard (events (handle_field (VStr t) q_ref (VStr "0,2")) w h)
     = [KeyboardPress "a"; KeyboardPress "c"; KeyboardPress "Enter"].
Proof.
  intros Ht Hkb. split.
  - intros v Hv tokens. split.
    + now apply choice_keyboard_until_failure.
    + intros keys Hkeys. exact (keys_until_failure_all _ _ _ Hkeys).
  - exact (choice_keyboard_until_failure w h t q_ref (VStr "0,2") Ht Hkb eq_refl).
Qed.

Lemma choice_types_press_keys_until_a_conversion_fails_witness :
  keyboard (events (handle_field (VStr "checkboxes") (VStr "r2") (VStr "B, 3,0")) calm [])
  = map KeyboardPress ["b"; "d"; "a"] ++ [KeyboardPress "Enter"].
Proof.
  assert (Ht : In "checkboxes" choice_types) by (cbn; tauto).
  assert (Hkb : forall h' key, respond calm h' (KeyboardPress key) = Ok tt)
    by (intros; reflexivity).
  exact (proj1 (proj1 (choice_types_press_keys_until_a_conversion_fails
                         calm [] "checkboxes" (VStr "r2") Ht Hkb)
                      (VStr "B, 3,0") eq_refl)).
Defined.

(** C2 as stated fails in two ways.  The token 9999999 is all digits and
    [chr(ord('a') + 9999999)] raises: for the answer "0,9999999,1", which has
    three tokens, a browser that accepts every key sees "a" and Enter only.
    And a browser that refuses the key "b" sees, for the answer "0,1,2",
    the keys "a" and "b" and then Enter: the key of the third token is never
    pressed. *)
Lemma choice_key_conversion_raises_counterexample :
  choice_tokens (python calm) "0,9999999,1" = ["0"; "9999999"; "1"]
  /\ key_of_token (python calm) "9999999" = Raise ValueError
  /\ keyboard (events (handle_field (VStr "multiple_choice") (VStr "r2") (VStr "0,9999999,1"))
                      calm [])
     = [KeyboardPress "a"; KeyboardPress "Enter"]
  /\ choice_keys (python only_key_a) "0,1,2" = Ok ["a"; "b"; "c"]
  /\ keyboard (events (handle_field (VStr "multiple_choice") (VStr "r2") (VStr "0,1,2"))
                      only_key_a [])
     = [KeyboardPress "a"; KeyboardPress "b"; KeyboardPress "Enter"].
Proof. repeat split. Qed.

(** ** Dropdown fields *)

Lemma arrows_run (w : world) :
  (forall h key, respond w h (KeyboardPress key) = Ok tt) ->
  forall (l : list Z) h,
    for_each l (fun _ => perform (KeyboardPress "ArrowDown") ;; sleep (Millis 300)) w h
    = (Ok tt, flat_map (fun _ => press_events "ArrowDown") l).
Proof.
  intros Hkb. induction l as [|i l IH]; intros h; cbn [for_each flat_map]; [reflexivity|].
  unfold bind at 1. unfold bind at 1, perform, sleep. rewrite Hkb. cbn.
  rewrite IH. reflexivity.
Qed.

Lemma keyboard_arrows (l : list Z) :
  keyboard (flat_map (fun _ => press_events "ArrowDown") l)
  = repeat (KeyboardPress "ArrowDown") (length l).
Proof.
  induction l as [|i l IH]; [reflexivity|].
  cbn [flat_map length repeat]. rewrite keyboard_app, IH. reflexivity.
Qed.

Lemma length_py_range n : length (py_range n) = Z.to_nat n.
Proof. unfold py_range. now rewrite length_map, length_seq. Qed.

Lemma arrow_downs_keyboard t :
  arrow_downs t = length (filter is_arrow_down (keyboard t)).
Proof.
  unfold arrow_downs, keyboard. induction (calls t) as [|c l IH]; [reflexivity|].
  cbn [filter]. destruct c; cbn; auto. destruct (String.eqb key "ArrowDown"); cbn; auto.
Qed.

Lemma filter_arrow_repeat n :
  filter is_arrow_down (repeat (KeyboardPress "ArrowDown") n)
  = repeat (KeyboardPress "ArrowDown") n.
Proof. induction n as [|n IH]; cbn in *; [reflexivity | now rewrite IH]. Qed.

(** The dropdown branch for a present answer when the keyboard accepts key
    presses. *)
Lemma dropdown_keyboard (w : world) (h : list event) (q_ref v : value) :
  (forall h' key, respond w h' (KeyboardPress key) = Ok tt) ->
  truthy v = true ->
  keyboard (events (handle_field (VStr "dropdown") q_ref v) w h)
  = [KeyboardPress "Tab"; KeyboardPress "Enter"]
      ++ repeat (KeyboardPress "ArrowDown") (Z.to_nat (dropdown_index (python w) v))
      ++ [KeyboardPress "Enter"].
Proof.
  intros Hkb Hv. unfold handle_field, field_interaction.
  change (in_strs (VStr "dropdown") free_text_types) with false.
  change (in_strs (VStr "dropdown") choice_types) with false.
  change (eq_str (VStr "dropdown") "dropdown") with true.
  rewrite Hv. unfold_run. cbn. fold (dropdown_index (python w) v).
  rewrite !Hkb. cbn.
  rewrite (arrows_run w Hkb). cbn. rewrite !Hkb. cbn.
  project. rewrite keyboard_arrows, length_py_range. reflexivity.
Qed.

Lemma dropdown_arrow_downs (w : world) (h : list event) (q_ref v : value) :
  (forall h' key, respond w h' (KeyboardPress key) = Ok tt) ->
  truthy v = true ->
  arrow_downs (events (handle_field (VStr "dropdown") q_ref v) w h)
  = Z.to_nat (dropdown_index (python w) v).
Proof.
  intros Hkb Hv. rewrite arrow_downs_keyboard, (dropdown_keyboard w h q_ref v Hkb Hv).
  cbn [app filter is_arrow_down String.eqb Ascii.eqb Bool.eqb].
  rewrite filter_app, filter_arrow_repeat, length_app, repeat_length. cbn. lia.
Qed.

(** C3, as the code has it. For a dropdown field and a present (truthy)
    answer, in a browser that accepts key presses, the keys pressed are Tab,
    Enter, then ArrowDown [max(k, 0)] times, then the final Enter, where [k]
    is [int(answer)], or 1 when the conversion raises; so ArrowDown is
    pressed exactly [max(k, 0)] times: [k] times when [k] is not negative,
    never when it is, and exactly 3 times for the answer "3". *)
Theorem dropdown_moves_down_index_times (w : world) (h : list event)
    (q_ref v : value) :
  (forall h' key, respond w h' (KeyboardPress key) = Ok tt) ->
  truthy v = true ->
  let k := dropdown_index (python w) v in
  keyboard (events (handle_field (VStr "dropdown") q_ref v) w h)
  = [KeyboardPress "Tab"; KeyboardPress "Enter"]
      ++ repeat (KeyboardPress "ArrowDown") (Z.to_nat (Z.max k 0))
      ++ [KeyboardPress "Enter"]
  /\ Z.of_nat (arrow_downs (events (handle_field (VStr "dropdown") q_ref v) w h))
     = Z.max k 0
  /\ arrow_downs (events (handle_field (VStr "dropdown") q_ref (VStr "3")) w h) = 3%nat.
Proof.
  intros Hkb Hv k. split; [|split].
  - rewrite (dropdown_keyboard w h q_ref v Hkb Hv). fold k.
    replace (Z.to_nat (Z.max k 0)) with (Z.to_nat k) by lia. reflexivity.
  - rewrite (dropdown_arrow_downs w h q_ref v Hkb Hv). fold k. lia.
  - exact (dropdown_arrow_downs w h q_ref (VStr "3") Hkb eq_refl).
Qed.

Lemma dropdown_moves_down_index_times_witness :
  Z.of_nat (arrow_downs (events (handle_field (VStr "dropdown") (VStr "r3") (VStr " 12 "))
                                calm []))
  = 12%Z.
Proof.
  assert (Hkb : forall h' key, respond calm h' (KeyboardPress key) = Ok tt)
    by (intros; reflexivity).
  exact (proj1 (proj2 (dropdown_moves_down_index_times calm [] (VStr "r3") (VStr " 12 ")
                                                       Hkb eq_refl))).
Defined.

(** C3 as stated fails in two ways.  The answer "-2" is present and
    converts to -2: the loop over [range(-2)] has no turn, ArrowDown is not
    pressed at all and the keys are Tab, Enter, Enter, in a browser that
    accepts every key.  And in a browser that refuses ArrowDown the answer
    "3" gets one press of ArrowDown, not three: the press that raised ends
    the loop. *)
Lemma dropdown_negative_index_counterexample :
  truthy (VStr "-2") = true
  /\ dropdown_index (python calm) (VStr "-2") = (-2)%Z
  /\ arrow_downs (events (handle_field (VStr "dropdown") (VStr "r3") (VStr "-2")) calm [])
     = 0%nat
  /\ keyboard (events (handle_field (VStr "dropdown") (VStr "r3") (VStr "-2")) calm [])
     = [KeyboardPress "Tab"; KeyboardPress "Enter"; KeyboardPress "Enter"]
  /\ dropdown_index (python arrow_down_refused) (VStr "3") = 3%Z
  /\ arrow_downs (events (handle_field (VStr "dropdown") (VStr "r3") (VStr "3"))
                         arrow_down_refused [])
     = 1%nat.
Proof. repeat split. Qed.

(** ** Resolving a field's answer *)

(** When the wait succeeds and the lookup does not raise, the turn hands the
    resolved answer to the field's [try] statement. *)
Lemma visit_field_run (w : world) (h : list event) answers idx field v :
  respond w (h ++ [Slept (Millis 1000)]) (PageWaitForTimeout 500) = Ok tt ->
  provided_answer answers field (get field "ref" VNone) = Ok v ->
  visit_field answers (idx, field) w h
  = (result (handle_field (get field "type" (VStr "")) (get field "ref" VNone) v) w
            (h ++ visit_prefix idx field),
     visit_prefix idx field
       ++ events (handle_field (get field "type" (VStr "")) (get field "ref" VNone) v) w
                 (h ++ visit_prefix idx field)).
Proof.
  intros Hw Hv. unfold visit_field, result, events, bind, sleep, perform, lift, print.
  rewrite Hw, Hv.
  replace (((((h ++ [Slept (Millis 1000)])
               ++ [Called (PageWaitForTimeout 500) (Ok tt)]) ++ [])
             ++ [Printed (MsgHandling (idx + 1) (get field "type" (VStr ""))
                                      (get field "ref" VNone))])
            ++ [Slept (Uniform 600 1400)])
    with (h ++ visit_prefix idx field)
    by (unfold visit_prefix; rewrite app_nil_r, <- !app_assoc; reflexivity).
  destruct (handle_field _ _ v w (h ++ visit_prefix idx field)) as [r t]. reflexivity.
Qed.

(** C5. The answer used for a field is looked up in the Answer Map by the
    field's title first, then by its reference id, and is [None] when
    neither finds one: a present (truthy) value under the title is the
    answer; when the title key is absent and the reference-id key is
    present, the value under the reference id is the answer; and the turn of
    the loop hands exactly the resolved value to the field's interaction. *)
Theorem answer_by_title_then_reference_id (entries field : dict)
    (title_key ref_key : string) :
  get field "title" VNone = VStr title_key ->
  get field "ref" VNone = VStr ref_key ->
  let resolved := provided_answer (VDict entries) field (VStr ref_key) in
  (forall x, assoc title_key entries = Some x -> truthy x = true -> resolved = Ok x)
  /\ (forall x, assoc title_key entries = None -> assoc ref_key entries = Some x ->
                resolved = Ok x)
  /\ (assoc title_key entries = None -> assoc ref_key entries = None ->
      resolved = Ok VNone)
  /\ (forall w h idx v,
         respond w (h ++ [Slept (Millis 1000)]) (PageWaitForTimeout 500) = Ok tt ->
         resolved = Ok v ->
         events (visit_field (VDict entries) (idx, field)) w h
         = visit_prefix idx field
             ++ events (handle_field (get field "type" (VStr "")) (VStr ref_key) v) w
                       (h ++ visit_prefix idx field)).
Proof.
  intros Ht Hr resolved.
  assert (E : resolved
              = if truthy (match assoc title_key entries with Some x => x | None => VNone end)
                then Ok (match assoc title_key entries with Some x => x | None => VNone end)
                else Ok (match assoc ref_key entries with Some x => x | None => VNone end)).
  { subst resolved. unfold provided_answer. rewrite Ht. reflexivity. }
  repeat split.
  - intros x Hx Tx. rewrite E, Hx, Tx. reflexivity.
  - intros x Hx Rx. rewrite E, Hx, Rx. reflexivity.
  - intros Hx Rx. rewrite E, Hx, Rx. reflexivity.
  - intros w h idx v Hw Hv. subst resolved.
    pose proof (visit_field_run w h (VDict entries) idx field v Hw) as R.
    rewrite Hr in R. specialize (R Hv). unfold events at 1. rewrite R. reflexivity.
Qed.

Lemma answer_by_title_then_reference_id_witness :
  provided_answer (VDict [("r1", VStr "a@b.com")]) email_field (VStr "r1") = Ok (VStr "a@b.com").
Proof.
  exact (proj1 (proj2 (answer_by_title_then_reference_id
                         [("r1", VStr "a@b.com")] email_field "Email" "r1" eq_refl eq_refl))
               (VStr "a@b.com") eq_refl eq_refl).
Defined.

(** ** Falsy answers *)

(** C10, as the code has it. Presence of an answer is truthiness, not key
    membership: a falsy value under the title is passed over and the answer
    is whatever the lookup by reference id gives; when that is falsy too, a
    free-text field gets "N/A" typed; a multiple-choice-like field gets no
    key press, only Enter, when that value is [None], whereas a falsy value
    other than [None] is stringified and pressed like any answer, the
    number 0 as the key "a". *)
Theorem falsy_answers_are_absent_unless_choice (w : world) (h : list event)
    (answers : value) (field : dict) (by_title by_ref : value) :
  dict_get answers (get field "title" VNone) VNone = Ok by_title ->
  truthy by_title = false ->
  dict_get answers (get field "ref" VNone) VNone = Ok by_ref ->
  let q_ref := get field "ref" VNone in
  provided_answer answers field q_ref = Ok by_ref
  /\ (truthy by_ref = false ->
      forall t, In t free_text_types ->
        keyboard (events (handle_field (VStr t) q_ref by_ref) w h)
        = [KeyboardType "N/A"; KeyboardPress "Enter"])
  /\ (by_ref = VNone ->
      forall t, In t choice_types ->
        keyboard (events (handle_field (VStr t) q_ref by_ref) w h)
        = [KeyboardPress "Enter"])
  /\ (by_ref <> VNone ->
      (forall h' key, respond w h' (KeyboardPress key) = Ok tt) ->
      forall t keys, In t choice_types ->
        choice_keys (python w) (py_str (repr_str w) by_ref) = Ok keys ->
        keyboard (events (handle_field (VStr t) q_ref by_ref) w h)
        = map KeyboardPress keys ++ [KeyboardPress "Enter"])
  /\ (by_ref = VInt 0 ->
      forall t, In t choice_types ->
        keyboard (events (handle_field (VStr t) q_ref by_ref) w h)
        = [KeyboardPress "a"; KeyboardPress "Enter"]).
Proof.
  intros Ht Hf Hr q_ref. split; [|split; [|split; [|split]]].
  - unfold provided_answer. rewrite Ht. cbn. rewrite Hf. exact Hr.
  - intros Hb t Hin.
    pose proof (proj2 (free_text_keyboard w h t q_ref by_ref Hin)) as K.
    cbv zeta in K. rewrite Hb in K. exact K.
  - intros -> t Hin. destruct (choice_type_not_free_text t Hin) as [Hft Hc].
    unfold handle_field, field_interaction. rewrite Hft, Hc.
    unfold_run. crank; reflexivity.
  - intros Hn Hkb t keys Hin Hkeys. apply choice_keyboard; try assumption.
    destruct by_ref; try reflexivity. now elim Hn.
  - intros -> t Hin. destruct (choice_type_not_free_text t Hin) as [Hft Hc].
    unfold handle_field, field_interaction. rewrite Hft, Hc.
    unfold_run. unfold press_choice. unfold_run. crank; reflexivity.
Qed.

Lemma falsy_answers_are_absent_unless_choice_witness :
  provided_answer (VDict [("Email", VStr ""); ("r1", VInt 0)]) email_field (VStr "r1")
  = Ok (VInt 0)
  /\ keyboard (events (handle_field (VStr "number") (VStr "r1") (VInt 0)) calm [])
     = [KeyboardType "N/A"; KeyboardPress "Enter"].
Proof.
  pose proof (falsy_answers_are_absent_unless_choice calm []
                (VDict [("Email", VStr ""); ("r1", VInt 0)]) email_field
                (VStr "") (VInt 0) eq_refl eq_refl eq_refl) as [P [F _]].
  split; [exact P|].
  apply (F eq_refl "number"). cbn. tauto.
Defined.

(** C10 as stated fails when the lookup by reference id gives a falsy value
    other than [None]: both lookups are falsy, and yet the multiple-choice
    field gets the key "a" pressed before Enter. *)
Lemma falsy_choice_answer_counterexample :
  dict_get zero_by_reference (get interest_field "title" VNone) VNone = Ok VNone
  /\ dict_get zero_by_reference (get interest_field "ref" VNone) VNone = Ok (VInt 0)
  /\ truthy VNone = false /\ truthy (VInt 0) = false
  /\ keyboard (events (visit_field zero_by_reference (1%nat, interest_field)) calm [])
     <> [KeyboardPress "Enter"].
Proof. repeat split. vm_compute. discriminate. Qed.

(** ** File-upload fields *)

(** C6 at an answer that is present and is not a string: the number 5.
    Calling [startswith] on it raises [AttributeError] inside the [try];
    nothing is downloaded, no file is attached, the exception is printed and
    Enter is pressed. *)
Theorem file_upload_number_answer_attaches_nothing (w : world) (h : list event)
    (q_ref : value) :
  result (handle_field (VStr "file_upload") q_ref (VInt 5)) w h = Ok tt
  /\ calls (events (handle_field (VStr "file_upload") q_ref (VInt 5)) w h)
     = [KeyboardPress "Enter"]
  /\ printed (events (handle_field (VStr "file_upload") q_ref (VInt 5)) w h)
     = [MsgFieldException q_ref AttributeError].
Proof.
  unfold handle_field, field_interaction. unfold_run. crank; auto.
Qed.

(** X23. The file-upload branch on the answers it expects: a string that begins
    with "http" is downloaded to a new temporary file, which is attached; an
    absent answer, or a string that does not begin with "http", attaches the
    placeholder. *)
Lemma file_upload_attaches_download_or_placeholder (w : world) (h : list event)
    (q_ref : value) :
  (forall h', respond w h' (PageLocator file_input) = Ok tt) ->
  (forall h' path, respond w h' (LocatorSetInputFiles path) = Ok tt) ->
  (forall h', respond w h' (KeyboardPress "Enter") = Ok tt) ->
  (forall url resp tmp,
      startswith "http" url = true ->
      (forall h', respond w h' (RequestsGet url None) = Ok resp) ->
      raise_for_status resp = Ok tt ->
      (forall h', respond w h' NamedTemporaryFile = Ok tmp) ->
      (forall h', respond w h' (FileWrite tmp (content resp)) = Ok tt) ->
      (forall h', respond w h' (FileClose tmp) = Ok tt) ->
      calls (events (handle_field (VStr "file_upload") q_ref (VStr url)) w h)
      = [RequestsGet url None; NamedTemporaryFile; FileWrite tmp (content resp);
         FileClose tmp; PageLocator file_input; LocatorSetInputFiles tmp;
         KeyboardPress "Enter"])
  /\ (forall v,
         truthy v = false \/ (exists s, v = VStr s /\ startswith "http" s = false) ->
         calls (events (handle_field (VStr "file_upload") q_ref v) w h)
         = [PageLocator file_input; LocatorSetInputFiles (PITCH_DECK_PATH w);
            KeyboardPress "Enter"]).
Proof.
  intros Hloc Hset Hent. split.
  - intros url resp tmp Hp Hget Hst Htmp Hwr Hcl.
    assert (Hu : truthy (VStr url) = true) by (destruct url; [discriminate | reflexivity]).
    unfold handle_field, field_interaction.
    change (in_strs (VStr "file_upload") free_text_types) with false.
    change (in_strs (VStr "file_upload") choice_types) with false.
    change (eq_str (VStr "file_upload") "dropdown") with false.
    change (eq_str (VStr "file_upload") "file_upload") with true.
    rewrite Hu. unfold startswith_method. rewrite Hp.
    unfold_run. cbn [py_str]. rewrite Hget, Hst, Htmp, Hwr, Hcl.
    fold file_input. rewrite Hloc, Hset, Hent. reflexivity.
  - intros v Hv.
    assert (E : (if truthy v then lift (startswith_method v "http") else ret false)
                = (fun _ _ => (Ok false, []))).
    { destruct Hv as [Hv | (s & -> & Hs)].
      - rewrite Hv. reflexivity.
      - unfold startswith_method. rewrite Hs. destruct (truthy (VStr s)); reflexivity. }
    unfold handle_field, field_interaction.
    change (in_strs (VStr "file_upload") free_text_types) with false.
    change (in_strs (VStr "file_upload") choice_types) with false.
    change (eq_str (VStr "file_upload") "dropdown") with false.
    change (eq_str (VStr "file_upload") "file_upload") with true.
    cbv iota. rewrite E. unfold_run. fold file_input.
    rewrite Hloc, Hset, Hent. reflexivity.
Qed.

(** ** Fetching the form description *)

(** [get_form_fields] in terms of the body of its [try]. *)
Lemma get_form_fields_run (w : world) (h : list event) (form_id : string) :
  get_form_fields form_id w h
  = match fetch_fields form_id w (h ++ [Printed MsgStep1]) with
    | (Ok fields, t) => (Ok fields, Printed MsgStep1 :: t)
    | (Raise e, t) => (Ok [], Printed MsgStep1 :: t ++ [Printed (MsgFieldsError e)])
    end.
Proof.
  unfold get_form_fields, bind, print, try_except, ret.
  destruct (fetch_fields form_id w (h ++ [Printed MsgStep1])) as [[fields|e] t];
    cbn; reflexivity.
Qed.

(** C4. [get_form_fields] never raises, for any form identifier and
    whatever the world does; and when its request or the parsing of the
    response raises (the request itself, an error status, a body that is
    not JSON, a JSON document of the wrong shape) it prints the error and
    returns the empty list. *)
Theorem get_form_fields_never_raises (w : world) (h : list event) (form_id : string) :
  let url := ("https://api.typeform.com/forms/" ++ form_id)%string in
  let request := RequestsGet url (Some 15%Z) in
  let fetched := result (get_form_fields form_id) w h in
  (exists fields, fetched = Ok fields)
  /\ (forall e, result (fetch_fields form_id) w (h ++ [Printed MsgStep1]) = Raise e ->
        fetched = Ok []
        /\ exists t, printed (events (get_form_fields form_id) w h)
                     = MsgStep1 :: t ++ [MsgFieldsError e])
  /\ (forall e, respond w (h ++ [Printed MsgStep1]) request = Raise e -> fetched = Ok [])
  /\ (forall resp e,
        respond w (h ++ [Printed MsgStep1]) request = Ok resp ->
        raise_for_status resp = Raise e -> fetched = Ok [])
  /\ (forall resp form_data e,
        respond w (h ++ [Printed MsgStep1]) request = Ok resp ->
        raise_for_status resp = Ok tt ->
        (respond w (h ++ [Printed MsgStep1; Called request (Ok resp)])
                 (ResponseJson (content resp)) = Raise e
         \/ (respond w (h ++ [Printed MsgStep1; Called request (Ok resp)])
                     (ResponseJson (content resp)) = Ok form_data
             /\ collect_fields form_data = Raise e)) ->
        fetched = Ok []).
Proof.
  intros url request fetched.
  assert (R : forall e, result (fetch_fields form_id) w (h ++ [Printed MsgStep1]) = Raise e ->
                        fetched = Ok []).
  { intros e He. subst fetched. unfold result in *. rewrite get_form_fields_run.
    destruct (fetch_fields form_id w (h ++ [Printed MsgStep1])) as [r t]. cbn in He.
    subst r. reflexivity. }
  split; [|split; [|split; [|split]]].
  - subst fetched. unfold result. rewrite get_form_fields_run.
    destruct (fetch_fields form_id w (h ++ [Printed MsgStep1])) as [[fields|e] t]; cbn; eauto.
  - intros e He. split; [exact (R e He)|].
    unfold events. rewrite get_form_fields_run. unfold result in He.
    destruct (fetch_fields form_id w (h ++ [Printed MsgStep1])) as [r t]. cbn in He. subst r.
    exists (printed t). cbn [snd]. rewrite printed_Printed, printed_app. reflexivity.
  - intros e He. apply (R e). unfold result, fetch_fields, bind, perform.
    fold url. fold request. rewrite He. reflexivity.
  - intros resp e He Hs. apply (R e). unfold result, fetch_fields, bind, perform, lift.
    fold url. fold request. rewrite He, Hs. reflexivity.
  - intros resp form_data e He Hs Hj.
    assert (Hh : ((h ++ [Printed MsgStep1]) ++ [Called request (Ok resp)]) ++ []
                 = h ++ [Printed MsgStep1; Called request (Ok resp)])
      by (rewrite app_nil_r, <- app_assoc; reflexivity).
    apply (R e). unfold result, fetch_fields, bind, perform, lift.
    fold url. fold request. rewrite He, Hs, Hh.
    destruct Hj as [Hj | [Hj Hc]]; rewrite Hj; [reflexivity|]. rewrite Hc. reflexivity.
Qed.

Lemma get_form_fields_never_raises_witness :
  result (get_form_fields "qedCsWYt") api_unreachable [] = Ok []
  /\ result (get_form_fields "qedCsWYt") form_not_found [] = Ok [].
Proof.
  split.
  - exact (proj1 (proj2 (proj2 (get_form_fields_never_raises api_unreachable [] "qedCsWYt")))
                 (LibraryError "ConnectionError") eq_refl).
  - exact (proj1 (proj2 (proj2 (proj2
                   (get_form_fields_never_raises form_not_found [] "qedCsWYt"))))
                 {| status_code := 404; content := "" |} (HTTPError 404) eq_refl eq_refl).
Defined.

(** ** The completion service's reply *)

(** C8, as the code has it. When the completion service's reply does not
    parse as JSON, [map_row_to_typeform] raises; nothing in the main loop
    catches the exception, so the loop over the rows raises it too, having
    done nothing beyond that row's request and failed parse: the row's form
    is not filled and no later row is processed. *)
Theorem unparseable_reply_aborts_the_run (w : world) (h : list event)
    (fields : list dict) (row : value) (rest : list value) (reply : string) (e : exn) :
  let completion := ChatCompletionCreate "gpt-5" fields row in
  respond w (h ++ [Printed MsgStep2]) completion = Ok reply ->
  respond w (h ++ [Printed MsgStep2; Called completion (Ok reply)]) (JsonLoads reply)
  = Raise e ->
  result (map_row_to_typeform fields row "gpt-5") w h = Raise e
  /\ result (for_each (row :: rest) (process_row fields)) w h = Raise e
  /\ calls (events (for_each (row :: rest) (process_row fields)) w h)
     = [completion; JsonLoads reply].
Proof.
  intros completion Hc Hj.
  assert (Hh : (h ++ [Printed MsgStep2]) ++ [Called completion (Ok reply)]
               = h ++ [Printed MsgStep2; Called completion (Ok reply)])
    by (rewrite <- app_assoc; reflexivity).
  assert (Run : map_row_to_typeform fields row "gpt-5" w h
                = (Raise e, [Printed MsgStep2; Called completion (Ok reply);
                             Called (JsonLoads reply) (Raise e)])).
  { unfold map_row_to_typeform, bind, print, perform. fold completion.
    rewrite Hc, Hh, Hj. reflexivity. }
  split; [|split].
  - unfold result. now rewrite Run.
  - unfold result. cbn [for_each]. unfold process_row, bind. now rewrite Run.
  - unfold events. cbn [for_each]. unfold process_row, bind. now rewrite Run.
Qed.

Lemma unparseable_reply_aborts_the_run_witness :
  calls (events (for_each two_rows (process_row [email_field])) reply_not_json [])
  = [ChatCompletionCreate "gpt-5" [email_field] (VDict [("email", VStr "a@b.com")]);
     JsonLoads "reply"].
Proof.
  exact (proj2 (proj2 (unparseable_reply_aborts_the_run reply_not_json [] [email_field]
                         (VDict [("email", VStr "a@b.com")])
                         [VDict [("email", VStr "c@d.com")]] "reply"
                         (LibraryError "JSONDecodeError") eq_refl eq_refl))).
Defined.

(** C8 as stated fails on a batch of two rows when the reply for the first
    does not parse: the script ends with the exception after one request to
    the completion service, and the second row is never processed. *)
Lemma later_rows_not_processed_counterexample :
  result get_rows reply_not_json [] = Ok two_rows
  /\ result main reply_not_json [] = Raise (LibraryError "JSONDecodeError")
  /\ filter is_completion (calls (events main reply_not_json []))
     = [ChatCompletionCreate "gpt-5" [email_field; interest_field]
                             (VDict [("email", VStr "a@b.com")])]
  /\ ~ In (ChatCompletionCreate "gpt-5" [email_field; interest_field]
                                (VDict [("email", VStr "c@d.com")]))
          (filter is_completion (calls (events main reply_not_json []))).
Proof.
  assert (E : filter is_completion (calls (events main reply_not_json []))
              = [ChatCompletionCreate "gpt-5" [email_field; interest_field]
                                      (VDict [("email", VStr "a@b.com")])])
    by reflexivity.
  repeat split; try reflexivity.
  rewrite E. intros [H|[]]. discriminate H.
Qed.

(** ** Failures while handling a field *)

Lemma visited_app t1 t2 : visited (t1 ++ t2) = visited t1 ++ visited t2.
Proof. unfold visited. now rewrite printed_app, flat_map_app. Qed.

Section Quiet.
Context {A B : Type}.

Lemma quiet_ret (a : A) : quiet (ret a).
Proof. intros w h. reflexivity. Qed.

Lemma quiet_lift (o : outcome A) : quiet (lift o).
Proof. intros w h. reflexivity. Qed.

Lemma quiet_bind (m : M A) (k : A -> M B) :
  quiet m -> (forall a, quiet (k a)) -> quiet (bind m k).
Proof.
  intros Hm Hk w h. specialize (Hm w h). unfold events, bind in *.
  destruct (m w h) as [[a|e] t]; cbn in *; [|assumption].
  specialize (Hk a w (h ++ t)). unfold events in Hk.
  destruct (k a w (h ++ t)) as [r t']; cbn in *. now rewrite visited_app, Hm, Hk.
Qed.

Lemma quiet_try_except (m : M A) (handler : exn -> M A) :
  quiet m -> (forall e, quiet (handler e)) -> quiet (try_except m handler).
Proof.
  intros Hm Hk w h. specialize (Hm w h). unfold events, try_except in *.
  destruct (m w h) as [[a|e] t]; cbn in *; [assumption|].
  specialize (Hk e w (h ++ t)). unfold events in Hk.
  destruct (handler e w (h ++ t)) as [r t']; cbn in *. now rewrite visited_app, Hm, Hk.
Qed.

End Quiet.

Lemma quiet_for_each {A} (l : list A) (body : A -> M unit) :
  (forall x, quiet (body x)) -> quiet (for_each l body).
Proof.
  intros Hb. induction l as [|x rest IH]; cbn [for_each].
  - intros w h. reflexivity.
  - apply quiet_bind; [apply Hb | intros _; exact IH].
Qed.

Lemma quiet_perform c : quiet (perform c).
Proof. intros w h. reflexivity. Qed.

Lemma quiet_sleep p : quiet (sleep p).
Proof. intros w h. reflexivity. Qed.

Lemma quiet_ask : quiet ask.
Proof. intros w h. reflexivity. Qed.

Lemma quiet_print m : visited [Printed m] = [] -> quiet (print m).
Proof. intros Hm w h. exact Hm. Qed.

Ltac quiet_step :=
  first
    [ apply quiet_ret | apply quiet_lift | apply quiet_perform | apply quiet_sleep
    | apply quiet_ask | apply quiet_print; reflexivity
    | apply quiet_for_each; intros ?
    | apply quiet_bind; [|intros ?]
    | apply quiet_try_except; [|intros ?]
    | match goal with
      | |- quiet (if ?b then _ else _) => destruct b
      | |- quiet (match ?x with _ => _ end) => destruct x
      end ].

Lemma quiet_safe_press_enter : quiet safe_press_enter.
Proof. unfold safe_press_enter. repeat quiet_step. Qed.

Lemma quiet_press_choice i key : quiet (press_choice i key).
Proof. unfold press_choice. cbv zeta. repeat quiet_step. Qed.

Lemma quiet_handle_field q_type q_ref v : quiet (handle_field q_type q_ref v).
Proof.
  unfold handle_field, field_interaction. cbv zeta.
  repeat first [ apply quiet_safe_press_enter | apply quiet_press_choice | quiet_step ].
Qed.

(** The [try] statement of the loop never raises. *)
Lemma handle_field_ok (w : world) (h : list event) q_type q_ref v :
  result (handle_field q_type q_ref v) w h = Ok tt.
Proof.
  unfold handle_field, result, try_except.
  destruct (field_interaction q_type v w h) as [[[]|e] t]; [reflexivity|].
  unfold bind, print.
  pose proof (safe_press_enter_spec w ((h ++ t) ++ [Printed (MsgFieldException q_ref e)])) as [R _].
  unfold result in R.
  destruct (safe_press_enter w ((h ++ t) ++ [Printed (MsgFieldException q_ref e)])) as [r t'].
  cbn in *. now subst r.
Qed.

(** The loop over the fields when the wait before each field succeeds and
    each lookup in the Answer Map is well defined. *)
Lemma fields_loop_run (w : world) (answers : value) :
  (forall h, respond w h (PageWaitForTimeout 500) = Ok tt) ->
  forall fields i h,
    (forall field, In field fields ->
       is_ok (provided_answer answers field (get field "ref" VNone)) = true) ->
    result (for_each (enumerate_from i fields) (visit_field answers)) w h = Ok tt
    /\ visited (events (for_each (enumerate_from i fields) (visit_field answers)) w h)
       = announced (enumerate_from i fields).
Proof.
  intros Hwait. induction fields as [|field rest IH]; intros i h Hans.
  - split; reflexivity.
  - cbn [enumerate_from for_each announced map].
    destruct (provided_answer answers field (get field "ref" VNone)) as [v|e] eqn:Hv.
    2:{ specialize (Hans field (or_introl eq_refl)). rewrite Hv in Hans. discriminate. }
    pose proof (visit_field_run w h answers i field v (Hwait _) Hv) as Run.
    rewrite handle_field_ok in Run.
    assert (Hrest : forall f, In f rest ->
              is_ok (provided_answer answers f (get f "ref" VNone)) = true)
      by (intros f Hf; apply Hans; now right).
    assert (Hres : result (visit_field answers (i, field)) w h = Ok tt)
      by (unfold result; now rewrite Run).
    assert (Hev : events (visit_field answers (i, field)) w h
                  = visit_prefix i field
                      ++ events (handle_field (get field "type" (VStr ""))
                                              (get field "ref" VNone) v) w
                                (h ++ visit_prefix i field))
      by (unfold events at 1; now rewrite Run).
    destruct (bind_ok w h (visit_field answers (i, field))
                (fun _ => for_each (enumerate_from (S i) rest) (visit_field answers))
                tt Hres) as [Er Ee].
    destruct (IH (S i) (h ++ events (visit_field answers (i, field)) w h) Hrest) as [R V].
    rewrite Er, Ee, R, visited_app, V, Hev, visited_app.
    rewrite (quiet_handle_field (get field "type" (VStr "")) (get field "ref" VNone) v
               w (h ++ visit_prefix i field)).
    split; reflexivity.
Qed.

(** C7. An exception raised while handling a field's interaction never
    leaves the field's [try] statement: it is printed with the field's
    reference id and Enter is pressed once more; so, as long as the wait
    and the lookup that precede each [try] succeed, the loop visits every
    field in order and ends normally, whatever fails inside the
    interactions. *)
Theorem field_failures_do_not_stop_the_loop (w : world) (h : list event) :
  (forall q_type q_ref v, result (handle_field q_type q_ref v) w h = Ok tt)
  /\ (forall q_type q_ref v e,
        result (field_interaction q_type v) w h = Raise e ->
        exists after,
          events (handle_field q_type q_ref v) w h
          = events (field_interaction q_type v) w h
              ++ Printed (MsgFieldException q_ref e) :: after
          /\ keyboard after = [KeyboardPress "Enter"]
          /\ printed after = [])
  /\ (forall answers fields,
        (forall h', respond w h' (PageWaitForTimeout 500) = Ok tt) ->
        (forall field, In field fields ->
           is_ok (provided_answer answers field (get field "ref" VNone)) = true) ->
        result (for_each (enumerate fields) (visit_field answers)) w h = Ok tt
        /\ visited (events (for_each (enumerate fields) (visit_field answers)) w h)
           = announced (enumerate fields)).
Proof.
  split; [|split].
  - intros. apply handle_field_ok.
  - intros q_type q_ref v e He. unfold handle_field, result, events, try_except in *.
    destruct (field_interaction q_type v w h) as [r t]. cbn in He. subst r.
    unfold bind, print.
    pose proof (safe_press_enter_spec w ((h ++ t) ++ [Printed (MsgFieldException q_ref e)]))
      as (_ & K & P).
    unfold events in K, P.
    destruct (safe_press_enter w ((h ++ t) ++ [Printed (MsgFieldException q_ref e)])) as [r t'].
    cbn in *. exists t'. auto.
  - intros answers fields Hwait Hans. exact (fields_loop_run w answers Hwait fields 0%nat h Hans).
Qed.

Lemma field_failures_do_not_stop_the_loop_witness :
  result (field_interaction (VStr "short_text") (VStr "a@b.com")) typing_fails []
  = Raise (LibraryError "keyboard.type failed")
  /\ visited (events (for_each (enumerate [email_field; interest_field])
                               (visit_field (c_mapping scenario_data)))
                     typing_fails [])
     = [(1%nat, VStr "short_text", VStr "r1"); (2%nat, VStr "multiple_choice", VStr "r2")].
Proof.
  split; [reflexivity|].
  refine (proj2 (proj2 (proj2 (field_failures_do_not_stop_the_loop typing_fails []))
                       (c_mapping scenario_data) [email_field; interest_field] _ _)).
  - intros h'. reflexivity.
  - intros field [<-|[<-|[]]]; reflexivity.
Defined.

(** ** Closing the browser *)

Lemma click_start_ok (w : world) (h : list event) : result click_start w h = Ok tt.
Proof. unfold click_start. crank; reflexivity. Qed.

Lemma final_submission_ok (w : world) (h : list event) :
  result final_submission w h = Ok tt.
Proof. unfold final_submission. crank; reflexivity. Qed.

Lemma result_perform (w : world) (h : list event) (c : call) :
  result (perform c) w h = respond w h c.
Proof. reflexivity. Qed.

Lemma bind_ok_inv {A B} (w : world) (h : list event) (m : M A) (k : A -> M B) b :
  result (bind m k) w h = Ok b ->
  exists a, result m w h = Ok a
            /\ result (k a) w (h ++ events m w h) = Ok b
            /\ events (bind m k) w h = events m w h ++ events (k a) w (h ++ events m w h).
Proof.
  unfold result, events, bind. destruct (m w h) as [[a|e] t]; cbn; [|discriminate].
  destruct (k a w (h ++ t)) as [r t'] eqn:Hk. cbn. intros ->. exists a.
  rewrite Hk. auto.
Qed.

(** Entering, running and leaving a [with] statement that returns. *)
Lemma with_cm_ok_inv {A} (w : world) (h : list event) (enter exit : M unit) (m : M A) b :
  result (with_cm enter exit m) w h = Ok b ->
  result enter w h = Ok tt
  /\ result m w (h ++ events enter w h) = Ok b
  /\ events (with_cm enter exit m) w h
     = events enter w h ++ events m w (h ++ events enter w h)
         ++ events exit w ((h ++ events enter w h) ++ events m w (h ++ events enter w h)).
Proof.
  unfold result, events, with_cm, bind. destruct (enter w h) as [[[]|e] t]; cbn; [|discriminate].
  destruct (m w (h ++ t)) as [r t']. cbn.
  destruct (exit w ((h ++ t) ++ t')) as [[[]|e] t'']; cbn; [|discriminate].
  intros ->. auto.
Qed.

Lemma calls_close_and_report (w : world) (h : list event) :
  calls (events close_and_report w h) = [BrowserClose].
Proof. unfold close_and_report. crank; reflexivity. Qed.

Lemma fill_and_submit_form_session url fields answers :
  fill_and_submit_form url fields answers
  = (print MsgStep4 ;;
     with_cm (perform SyncPlaywrightEnter) (perform SyncPlaywrightExit)
             (session url fields answers)).
Proof. reflexivity. Qed.

(** A session of which every step before the close returns reaches the
    close. *)
Lemma session_reaches_close (w : world) (h : list event) url fields answers :
  result (perform (ChromiumLaunch HEADLESS)) w h = Ok tt ->
  (forall h', respond w h' BrowserNewPage = Ok tt) ->
  (forall h', respond w h' (PageSetDefaultTimeout 25000) = Ok tt) ->
  (forall h', respond w h' (PageGoto url) = Ok tt) ->
  (forall h', respond w h' (PageWaitForLoadState "networkidle") = Ok tt) ->
  (forall h', result (for_each (enumerate fields) (visit_field answers)) w h' = Ok tt) ->
  exists before, calls (events (session url fields answers) w h) = before ++ [BrowserClose].
Proof.
  intros H1 H2 H3 H4 H5 H6. unfold session.
  repeat match goal with
         | |- context [events (bind ?m ?k) w ?h0] =>
             let E := fresh "E" in
             assert (E : result m w h0 = Ok tt)
               by first [ exact H1 | apply H2 | apply H3 | apply H4 | apply H5
                        | apply click_start_ok | apply H6 | apply final_submission_ok ];
             rewrite (proj2 (bind_ok w h0 m k tt E)); clear E
         end.
  rewrite !calls_app, calls_close_and_report, !app_assoc. eauto.
Qed.

(** C9, as the code has it. The browser is closed explicitly whenever the
    steps that nothing guards succeed, that is launching, opening the page,
    navigating, and the wait and lookup before each field: then, whatever
    fails in the start-button handling, in the fields' interactions or in
    the final submission, the last calls of the attempt are the close of the
    browser and the exit of the Playwright context.  The same holds whenever
    the function returns normally. *)
Theorem browser_closed_unless_setup_fails (w : world) (h : list event)
    (url : string) (fields : list dict) (answers : value) :
  ((forall h', respond w h' SyncPlaywrightEnter = Ok tt) ->
   (forall h', respond w h' (ChromiumLaunch HEADLESS) = Ok tt) ->
   (forall h', respond w h' BrowserNewPage = Ok tt) ->
   (forall h', respond w h' (PageSetDefaultTimeout 25000) = Ok tt) ->
   (forall h', respond w h' (PageGoto url) = Ok tt) ->
   (forall h', respond w h' (PageWaitForLoadState "networkidle") = Ok tt) ->
   (forall h', respond w h' (PageWaitForTimeout 500) = Ok tt) ->
   (forall field, In field fields ->
      is_ok (provided_answer answers field (get field "ref" VNone)) = true) ->
   exists before,
     calls (events (fill_and_submit_form url fields answers) w h)
     = before ++ [BrowserClose; SyncPlaywrightExit])
  /\ (result (fill_and_submit_form url fields answers) w h = Ok tt ->
      exists before,
        calls (events (fill_and_submit_form url fields answers) w h)
        = before ++ [BrowserClose; SyncPlaywrightExit]).
Proof.
  split.
  - intros H0 H1 H2 H3 H4 H5 Hwait Hans.
    rewrite fill_and_submit_form_session.
    destruct (session_reaches_close w ((h ++ [Printed MsgStep4])
                                         ++ [Called SyncPlaywrightEnter (Ok tt)])
                url fields answers (H1 _) H2 H3 H4 H5
                (fun h' => proj1 (fields_loop_run w answers Hwait fields 0%nat h' Hans)))
      as [before Hb].
    unfold events, bind, print, with_cm, perform at 1 2, bind. rewrite H0.
    unfold events in Hb.
    destruct (session url fields answers w _) as [r t]. cbn [snd] in Hb.
    exists (SyncPlaywrightEnter :: before).
    destruct (respond w _ SyncPlaywrightExit) as [[]|e]; cbn [snd];
      autorewrite with trace; rewrite Hb, <- app_assoc; reflexivity.
  - rewrite fill_and_submit_form_session. intros Hres.
    destruct (bind_ok_inv _ _ _ _ _ Hres) as ([] & _ & Hwith & ->).
    destruct (with_cm_ok_inv _ _ _ _ _ _ Hwith) as (_ & Hs & ->).
    unfold session in *.
    repeat match type of Hs with
           | result (bind _ _) _ _ = Ok tt =>
               let a := fresh "a" in
               let Hk := fresh "Hk" in
               destruct (bind_ok_inv _ _ _ _ _ Hs) as (a & _ & Hk & ->);
               clear Hs; rename Hk into Hs; destruct a
           end.
    autorewrite with trace. rewrite calls_close_and_report.
    change (calls (events (perform SyncPlaywrightExit) w ?h0)) with [SyncPlaywrightExit].
    eexists. rewrite !app_assoc. rewrite <- (app_assoc _ [BrowserClose]). reflexivity.
Qed.

Lemma browser_closed_unless_setup_fails_witness :
  exists before,
    calls (events (fill_and_submit_form TYPEFORM_URL [email_field; interest_field]
                                        (c_mapping scenario_data))
                  typing_fails [])
    = before ++ [BrowserClose; SyncPlaywrightExit].
Proof.
  refine (proj1 (browser_closed_unless_setup_fails typing_fails [] TYPEFORM_URL
                   [email_field; interest_field] (c_mapping scenario_data))
                _ _ _ _ _ _ _ _); try (intros h'; reflexivity).
  intros field [<-|[<-|[]]]; reflexivity.
Defined.

(** C9 as stated fails when navigation raises: the exception leaves
    [fill_and_submit_form], the Playwright context exits, and the browser's
    [close] is never called. *)
Lemma navigation_failure_skips_close_counterexample :
  result (fill_and_submit_form TYPEFORM_URL [email_field] (c_mapping scenario_data))
         navigation_fails []
  = Raise (LibraryError "net::ERR_NAME_NOT_RESOLVED")
  /\ calls (events (fill_and_submit_form TYPEFORM_URL [email_field] (c_mapping scenario_data))
                   navigation_fails [])
     = [SyncPlaywrightEnter; ChromiumLaunch false; BrowserNewPage;
        PageSetDefaultTimeout 25000; PageGoto "https://form.typeform.com/to/qedCsWYt";
        SyncPlaywrightExit]
  /\ ~ In BrowserClose
          (calls (events (fill_and_submit_form TYPEFORM_URL [email_field]
                                               (c_mapping scenario_data))
                         navigation_fails [])).
Proof.
  assert (E : calls (events (fill_and_submit_form TYPEFORM_URL [email_field]
                                                  (c_mapping scenario_data))
                            navigation_fails [])
              = [SyncPlaywrightEnter; ChromiumLaunch false; BrowserNewPage;
                 PageSetDefaultTimeout 25000;
                 PageGoto "https://form.typeform.com/to/qedCsWYt"; SyncPlaywrightExit])
    by reflexivity.
  split; [reflexivity|]. split; [exact E|]. rewrite E.
  intros H. repeat (destruct H as [H|H]; [discriminate H|]). exact H.
Qed.

(** ** Further properties: the form description *)

Lemma map_outcome_map {A B} (g : A -> outcome B) (f : A -> B) (xs : list A) :
  (forall x, In x xs -> g x = Ok (f x)) -> map_outcome g xs = Ok (map f xs).
Proof.
  induction xs as [|x rest IH]; intros H; cbn; [reflexivity|].
  rewrite (H x (or_introl eq_refl)). cbn.
  rewrite IH by (intros y Hy; apply H; now right). reflexivity.
Qed.

Lemma map_outcome_Forall2 {A B} (g : A -> outcome B) (xs : list A) : forall ys,
  map_outcome g xs = Ok ys -> Forall2 (fun x y => g x = Ok y) xs ys.
Proof.
  induction xs as [|x rest IH]; cbn; intros ys.
  - intros [= <-]. constructor.
  - destruct (g x) as [y|e] eqn:Hx; cbn; [|discriminate].
    destruct (map_outcome g rest) as [ys'|e] eqn:Hr; cbn; [|discriminate].
    intros [= <-]. constructor; auto.
Qed.

Lemma map_outcome_raises {A B} (g : A -> outcome B) (xs : list A) x e :
  In x xs -> g x = Raise e -> exists e', map_outcome g xs = Raise e'.
Proof.
  induction xs as [|y rest IH]; intros Hin Hx; [contradiction|]. cbn.
  destruct (g y) as [b|e1] eqn:Hy; cbn; [|eauto].
  destruct Hin as [->|Hin]; [congruence|].
  destruct (IH Hin Hx) as [e' ->]. cbn. eauto.
Qed.

(** X1. An entry of the list [get_form_fields] builds carries the raw
    field's [ref], [title] and [type] as they are; its [options] are the
    labels of the choices, in order, when the type is multiple_choice or
    picture_choice, and the empty list for every other type, checkboxes and
    dropdown included, whatever choices the raw field has. *)
Theorem options_only_for_choice_pictures (entries : dict) :
  let ty := get entries "type" VNone in
  let entry options :=
    [("ref", get entries "ref" VNone); ("title", get entries "title" VNone);
     ("type", ty); ("options", VList options)] in
  (in_strs ty ["multiple_choice"; "picture_choice"] = false ->
   field_entry (VDict entries) = Ok (entry []))
  /\ (forall props choices,
        in_strs ty ["multiple_choice"; "picture_choice"] = true ->
        get entries "properties" (VDict []) = VDict props ->
        get props "choices" (VList []) = VList choices ->
        (forall c, In c choices -> exists e, c = VDict e) ->
        field_entry (VDict entries) = Ok (entry (map label_of choices))).
Proof.
  intros ty entry. unfold field_entry. cbn [dict_get and_then].
  fold (get entries "ref" VNone) (get entries "title" VNone) (get entries "type" VNone)
       (get entries "properties" (VDict [])).
  fold ty. split.
  - intros ->. reflexivity.
  - intros props choices -> -> Hc Hall. cbn [dict_get and_then].
    fold (get props "choices" (VList [])). rewrite Hc. cbn [py_iter and_then].
    rewrite (map_outcome_map _ label_of choices); [reflexivity|].
    intros c Hin. destruct (Hall c Hin) as [e ->]. reflexivity.
Qed.

Lemma options_only_for_choice_pictures_witness :
  field_entry (VDict raw_checkboxes)
  = Ok [("ref", VStr "r4"); ("title", VStr "Topics"); ("type", VStr "checkboxes");
        ("options", VList [])].
Proof.
  exact (proj1 (options_only_for_choice_pictures raw_checkboxes) eq_refl).
Defined.

Lemma field_entry_inv (raw : value) (field : dict) :
  field_entry raw = Ok field ->
  exists e, raw = VDict e
            /\ get field "ref" VNone = get e "ref" VNone
            /\ get field "title" VNone = get e "title" VNone
            /\ get field "type" VNone = get e "type" VNone.
Proof.
  destruct raw as [| | | |items|e]; try discriminate. intros H. exists e.
  split; [reflexivity|]. unfold field_entry in H. cbn [dict_get and_then] in H.
  match type of H with
  | and_then ?o _ = _ => destruct o as [opts|err]; cbn [and_then] in H; [|discriminate]
  end.
  injection H as <-. repeat split; reflexivity.
Qed.

(** X2. When the parsing of the form description succeeds, the fields come
    out one per raw entry and in the raw order, each with the [ref], [title]
    and [type] of its raw entry. *)
Theorem collect_fields_keeps_order (form_data : value) (fields : list dict) :
  collect_fields form_data = Ok fields ->
  exists entries items,
    form_data = VDict entries
    /\ py_iter (get entries "fields" (VList [])) = Ok items
    /\ Forall2 (fun raw field =>
                  exists e, raw = VDict e
                            /\ get field "ref" VNone = get e "ref" VNone
                            /\ get field "title" VNone = get e "title" VNone
                            /\ get field "type" VNone = get e "type" VNone)
               items fields.
Proof.
  unfold collect_fields. destruct form_data as [| | | |l|entries]; try discriminate.
  cbn [dict_get and_then]. fold (get entries "fields" (VList [])).
  destruct (py_iter (get entries "fields" (VList []))) as [items|e] eqn:Hi; [|discriminate].
  cbn [and_then]. intros H. exists entries, items.
  split; [reflexivity|]. split; [exact Hi|].
  apply map_outcome_Forall2 in H.
  eapply Forall2_impl; [|exact H]. intros raw field. apply field_entry_inv.
Qed.

Lemma collect_fields_keeps_order_witness :
  exists entries items,
    c_form scenario_data = VDict entries
    /\ py_iter (get entries "fields" (VList [])) = Ok items
    /\ Forall2 (fun raw field =>
                  exists e, raw = VDict e
                            /\ get field "ref" VNone = get e "ref" VNone
                            /\ get field "title" VNone = get e "title" VNone
                            /\ get field "type" VNone = get e "type" VNone)
               items [email_field; interest_field].
Proof.
  exact (collect_fields_keeps_order (c_form scenario_data) [email_field; interest_field]
                                    eq_refl).
Defined.

(** X3. The form description is taken whole or not at all: when the request
    and the decoding succeed and one entry of the fields list is not a
    dictionary, [get_form_fields] returns the empty list, dropping the
    well-formed entries too. *)
Theorem one_malformed_entry_drops_all_fields (w : world) (h : list event)
    (form_id : string) (resp : response) (entries : dict) (items : list value)
    (bad : value) :
  respond w (h ++ [Printed MsgStep1]) (form_request form_id) = Ok resp ->
  raise_for_status resp = Ok tt ->
  respond w (h ++ [Printed MsgStep1; Called (form_request form_id) (Ok resp)])
          (ResponseJson (content resp)) = Ok (VDict entries) ->
  get entries "fields" (VList []) = VList items ->
  In bad items ->
  (forall e, bad <> VDict e) ->
  result (get_form_fields form_id) w h = Ok [].
Proof.
  intros Hr Hs Hj Hf Hin Hbad.
  assert (Hb : field_entry bad = Raise AttributeError)
    by (destruct bad; try reflexivity; now elim (Hbad entries0)).
  destruct (map_outcome_raises field_entry items bad _ Hin Hb) as [e' He'].
  assert (Hh : ((h ++ [Printed MsgStep1]) ++ [Called (form_request form_id) (Ok resp)]) ++ []
               = h ++ [Printed MsgStep1; Called (form_request form_id) (Ok resp)])
    by (rewrite app_nil_r, <- app_assoc; reflexivity).
  unfold result. rewrite get_form_fields_run.
  unfold fetch_fields, bind, perform, lift. fold (form_request form_id).
  rewrite Hr, Hs, Hh, Hj. unfold collect_fields. cbn [dict_get and_then].
  fold (get entries "fields" (VList [])). rewrite Hf. cbn [py_iter and_then].
  rewrite He'. reflexivity.
Qed.

Lemma one_malformed_entry_drops_all_fields_witness :
  result (get_form_fields "qedCsWYt") broken_schema [] = Ok [].
Proof.
  refine (one_malformed_entry_drops_all_fields broken_schema [] "qedCsWYt"
            {| status_code := 200; content := "body" |} _ _ (VStr "oops")
            eq_refl eq_refl eq_refl eq_refl _ _).
  - cbn. tauto.
  - intros e. discriminate.
Defined.

(** X4. [get_form_fields] talks to the Typeform API and to nothing else: it
    sends one request, with a timeout of 15 seconds, and decodes the body
    only when the request returned with a status that is no error. *)
Theorem get_form_fields_calls (w : world) (h : list event) (form_id : string) :
  calls (events (get_form_fields form_id) w h) = [form_request form_id]
  \/ exists resp,
       respond w (h ++ [Printed MsgStep1]) (form_request form_id) = Ok resp
       /\ raise_for_status resp = Ok tt
       /\ calls (events (get_form_fields form_id) w h)
          = [form_request form_id; ResponseJson (content resp)].
Proof.
  unfold events. rewrite get_form_fields_run.
  unfold fetch_fields, bind, perform, lift. fold (form_request form_id).
  destruct (respond w (h ++ [Printed MsgStep1]) (form_request form_id)) as [resp|e] eqn:Hr.
  - destruct (raise_for_status resp) as [[]|e] eqn:Hs.
    + right. exists resp. split; [reflexivity|]. split; [exact Hs|].
      match goal with
      | |- context [respond w ?h0 (ResponseJson (content resp))] =>
          destruct (respond w h0 (ResponseJson (content resp))) as [form_data|e];
            [destruct (collect_fields form_data)|]; reflexivity
      end.
    + left. reflexivity.
  - left. reflexivity.
Qed.

(** ** Further properties: the helpers of the driver *)

(** Deciding membership in a list of explicit calls or events. *)
Ltac in_list := solve [cbn; repeat (first [left; reflexivity | right])].
Ltac not_in_list H :=
  vm_compute in H; repeat (destruct H as [H|H]; [discriminate H|]); contradiction.
Ltac conjuncts := repeat match goal with |- _ /\ _ => split end.

(** X5. [safe_press_enter] never raises, presses Enter exactly once and
    makes no other call; the pause of two seconds follows only a press that
    succeeded. *)
Theorem safe_press_enter_never_raises (w : world) (h : list event) :
  let pressed := respond w h (KeyboardPress "Enter") in
  result safe_press_enter w h = Ok tt
  /\ events safe_press_enter w h
     = Called (KeyboardPress "Enter") pressed
         :: (if is_ok pressed then [Slept (Millis 2000)] else []).
Proof.
  intros pressed. subst pressed. unfold safe_press_enter.
  unfold_run. cbn. destruct (respond w h (KeyboardPress "Enter")) as [[]|e]; cbn; auto.
Qed.

(** X6. The start-button block never raises and never touches the
    keyboard.  It clicks only when the page has a Start button, and it
    falls back to the script-level click only after the normal click, or
    the pause that follows it, raised, and only on an element handle that
    is there. *)
Theorem click_start_falls_back_only_after_failure (w : world) (h : list event) :
  let t := events click_start w h in
  result click_start w h = Ok tt
  /\ keyboard t = []
  /\ (In (LocatorFirstClick 8000) (calls t) ->
      exists n : Z, In (Called LocatorCount (Ok n)) t /\ (0 < n)%Z)
  /\ (In PageEvaluateClick (calls t) ->
      (exists e, In (Called (LocatorFirstClick 8000) (Raise e)) t
                 \/ In (Called (PageWaitForTimeout 700) (Raise e)) t)
      /\ In (Called LocatorFirstElementHandle (Ok true)) t).
Proof.
  intros t. subst t. unfold click_start. crank.
  all: conjuncts; try reflexivity.
  all: try (intros H; solve [not_in_list H]).
  all: try (intros _; eexists; split; [in_list | reflexivity]).
  all: intros _; split; [eexists; first [left; in_list | right; in_list] | in_list].
Qed.

Lemma click_start_falls_back_only_after_failure_witness :
  (exists e, In (Called (LocatorFirstClick 8000) (Raise e))
                (events click_start click_intercepted [])
             \/ In (Called (PageWaitForTimeout 700) (Raise e))
                   (events click_start click_intercepted []))
  /\ In (Called LocatorFirstElementHandle (Ok true)) (events click_start click_intercepted []).
Proof.
  apply (proj2 (proj2 (proj2 (click_start_falls_back_only_after_failure click_intercepted [])))).
  vm_compute. tauto.
Defined.

(** X7. The final submission never raises and presses Control+Enter exactly
    once.  It reports success when the acknowledgment shows up, warns when
    waiting for it raises, and reports the exception, without waiting, when
    the key press itself raises. *)
Theorem final_submission_reports_and_returns (w : world) (h : list event) :
  let t := events final_submission w h in
  result final_submission w h = Ok tt
  /\ keyboard t = [submit_key]
  /\ ((printed t = [MsgAttemptSubmit; MsgThankYou]
       /\ In (Called thank_you_wait (Ok tt)) t)
      \/ (printed t = [MsgAttemptSubmit; MsgNoThankYou]
          /\ exists e, In (Called thank_you_wait (Raise e)) t)
      \/ (exists e, printed t = [MsgAttemptSubmit; MsgSubmitRaised e]
                    /\ In (Called submit_key (Raise e)) t
                    /\ ~ In thank_you_wait (calls t))).
Proof.
  intros t. subst t. unfold final_submission, submit_key, thank_you_wait. crank.
  - conjuncts; try reflexivity. left. split; [reflexivity | in_list].
  - conjuncts; try reflexivity. right. left. split; [reflexivity|]. eexists. in_list.
  - conjuncts; try reflexivity. right. right. eexists.
    split; [reflexivity|]. split; [in_list|]. intros H. not_in_list H.
Qed.

(** X8. A field whose type is none of the types the driver knows (a type
    tag such as "rating", a missing type) is skipped: whatever the answer
    and whatever the browser does, the only call is one press of Enter, and
    the type is reported as unknown. *)
Theorem unknown_type_only_advances (w : world) (h : list event)
    (q_type q_ref v : value) :
  in_strs q_type free_text_types = false ->
  in_strs q_type choice_types = false ->
  eq_str q_type "dropdown" = false ->
  eq_str q_type "file_upload" = false ->
  result (handle_field q_type q_ref v) w h = Ok tt
  /\ calls (events (handle_field q_type q_ref v) w h) = [KeyboardPress "Enter"]
  /\ printed (events (handle_field q_type q_ref v) w h) = [MsgUnknownType q_type].
Proof.
  intros H1 H2 H3 H4. unfold handle_field, field_interaction.
  rewrite H1, H2, H3, H4. crank; auto.
Qed.

Lemma unknown_type_only_advances_witness :
  calls (events (handle_field (VStr "rating") (VStr "r9") (VInt 4)) typing_fails [])
  = [KeyboardPress "Enter"]
  /\ calls (events (handle_field VNone VNone (VStr "x")) calm []) = [KeyboardPress "Enter"].
Proof.
  split.
  - exact (proj1 (proj2 (unknown_type_only_advances typing_fails [] (VStr "rating")
                           (VStr "r9") (VInt 4) eq_refl eq_refl eq_refl eq_refl))).
  - exact (proj1 (proj2 (unknown_type_only_advances calm [] VNone VNone (VStr "x")
                           eq_refl eq_refl eq_refl eq_refl))).
Defined.

(** X9. A dropdown field without a present answer leaves the selection
    alone: ArrowDown is never pressed, whatever the browser does; with a
    keyboard that accepts key presses the keys are Tab, Enter, Enter. *)
Theorem dropdown_without_answer_moves_nothing (w : world) (h : list event)
    (q_ref v : value) :
  truthy v = false ->
  arrow_downs (events (handle_field (VStr "dropdown") q_ref v) w h) = 0%nat
  /\ ((forall h' key, respond w h' (KeyboardPress key) = Ok tt) ->
      keyboard (events (handle_field (VStr "dropdown") q_ref v) w h)
      = [KeyboardPress "Tab"; KeyboardPress "Enter"; KeyboardPress "Enter"]).
Proof.
  intros Hv. unfold handle_field, field_interaction.
  change (in_strs (VStr "dropdown") free_text_types) with false.
  change (in_strs (VStr "dropdown") choice_types) with false.
  change (eq_str (VStr "dropdown") "dropdown") with true.
  rewrite Hv. split.
  - crank; reflexivity.
  - intros Hkb. unfold_run. cbn. rewrite !Hkb. cbn. rewrite ?Hkb. reflexivity.
Qed.

Lemma dropdown_without_answer_moves_nothing_witness :
  arrow_downs (events (handle_field (VStr "dropdown") (VStr "r3") (VInt 0)) calm []) = 0%nat.
Proof.
  exact (proj1 (dropdown_without_answer_moves_nothing calm [] (VStr "r3") (VInt 0) eq_refl)).
Defined.

(** ** Further properties: the interactions in a browser that may fail *)

Lemma presses_app t1 t2 : presses (t1 ++ t2) = presses t1 ++ presses t2.
Proof. unfold presses. now rewrite flat_map_app. Qed.

Lemma presses_press_events keys : presses (flat_map press_events keys) = accepted keys.
Proof.
  induction keys as [|k ks IH]; [reflexivity|].
  cbn [flat_map]. rewrite presses_app, IH. reflexivity.
Qed.

(** X10. For a multiple-choice-like field and an answer that is not None
    whose tokens all have a key, in a browser that may refuse any key: the
    keys of the answer are pressed in order, each accepted, up to and
    including the first one that the browser refuses, the keys after that one
    are abandoned, and Enter is pressed once after them in every case. *)
Theorem refused_key_stops_the_keys_not_the_advance (w : world) (h : list event)
    (t : string) (q_ref v : value) (keys : list string) :
  In t choice_types ->
  is_not_none v = true ->
  choice_keys (python w) (py_str (repr_str w) v) = Ok keys ->
  exists enter : bool,
    presses (events (handle_field (VStr t) q_ref v) w h)
    = accepted keys ++ [("Enter", enter)]
    \/ exists before key after,
         keys = before ++ key :: after
         /\ presses (events (handle_field (VStr t) q_ref v) w h)
            = accepted before ++ [(key, false); ("Enter", enter)].
Proof.
  intros Ht Hv Hkeys.
  destruct (choice_branch_events w h t q_ref v Ht Hv) as (tail & enter & -> & _ & Hp).
  exists enter. rewrite presses_app, Hp.
  pose proof (press_choices_any w (python w)
                (split "," (remove_spaces (py_str (repr_str w) v))) (h ++ [])) as Hl.
  cbv zeta in Hl. fold (choice_tokens (python w) (py_str (repr_str w) v)) in Hl.
  rewrite (proj1 (keys_until_failure_all _ _ _ Hkeys)) in Hl.
  destruct Hl as [-> | (before & key & after & e & -> & ->)].
  - left. now rewrite presses_press_events.
  - right. exists before, key, after. split; [reflexivity|].
    rewrite presses_app, presses_press_events, <- app_assoc. reflexivity.
Qed.

Lemma refused_key_stops_the_keys_not_the_advance_witness :
  exists enter : bool,
    presses (events (handle_field (VStr "checkboxes") (VStr "r4") (VStr "0,1,2"))
                    only_key_a [])
    = accepted ["a"; "b"; "c"] ++ [("Enter", enter)]
    \/ exists before key after,
         ["a"; "b"; "c"] = before ++ key :: after
         /\ presses (events (handle_field (VStr "checkboxes") (VStr "r4") (VStr "0,1,2"))
                            only_key_a [])
            = accepted before ++ [(key, false); ("Enter", enter)].
Proof.
  refine (refused_key_stops_the_keys_not_the_advance only_key_a [] "checkboxes" (VStr "r4")
            (VStr "0,1,2") ["a"; "b"; "c"] _ eq_refl eq_refl).
  cbn. tauto.
Defined.

Lemma events_sleep (w : world) (h : list event) (p : pause) : events (sleep p) w h = [Slept p].
Proof. reflexivity. Qed.

(** Follow a computation that returned down to its last step. *)
Ltac to_last_step Hs :=
  repeat match type of Hs with
         | result (bind _ _) _ _ = Ok _ =>
             let a := fresh "a" in
             let Hk := fresh "Hk" in
             destruct (bind_ok_inv _ _ _ _ _ Hs) as (a & _ & Hk & ->);
             clear Hs; rename Hk into Hs; cbv beta in Hs
         end.

Lemma keyboard_ends_with_enter (w : world) (h : list event) (m : M unit) :
  (exists before h', events m w h = before ++ events safe_press_enter w h') ->
  exists keys, keyboard (events m w h) = keys ++ [KeyboardPress "Enter"].
Proof.
  intros (before & h' & ->). exists (keyboard before).
  rewrite keyboard_app. now rewrite (proj1 (proj2 (safe_press_enter_spec w h'))).
Qed.

Lemma interaction_ends_with_enter (w : world) (h : list event) (q_type v : value) :
  result (field_interaction q_type v) w h = Ok tt ->
  exists keys, keyboard (events (field_interaction q_type v) w h)
               = keys ++ [KeyboardPress "Enter"].
Proof.
  unfold field_interaction. cbv zeta. intros Hs.
  destruct (bind_ok_inv _ _ _ _ _ Hs) as ([] & Hb & _ & ->). clear Hs.
  rewrite events_sleep, keyboard_app. autorewrite with trace.
  apply keyboard_ends_with_enter.
  destruct (in_strs q_type free_text_types);
    [|destruct (in_strs q_type choice_types);
      [|destruct (eq_str q_type "dropdown"); [|destruct (eq_str q_type "file_upload")]]].
  all: to_last_step Hb.
  all: rewrite ?app_assoc; eauto.
Qed.

(** X11. Whatever the type of the field, its answer and the behaviour of
    the browser, handling a field ends with a press of Enter: the last
    keyboard call of every field is the advance. *)
Theorem every_field_ends_with_an_advance (w : world) (h : list event)
    (q_type q_ref v : value) :
  exists keys,
    keyboard (events (handle_field q_type q_ref v) w h) = keys ++ [KeyboardPress "Enter"].
Proof.
  unfold handle_field.
  destruct (result (field_interaction q_type v) w h) as [[]|e] eqn:Hr.
  - rewrite (proj2 (try_except_ok w h _ _ tt Hr)). now apply interaction_ends_with_enter.
  - rewrite (proj2 (try_except_raise w h _ _ e Hr)).
    exists (keyboard (events (field_interaction q_type v) w h)).
    rewrite keyboard_app. f_equal.
    unfold events at 1, bind, print.
    match goal with |- context [safe_press_enter w ?h0] =>
      pose proof (proj1 (proj2 (safe_press_enter_spec w h0))) as K;
      unfold events at 1 in K; revert K; destruct (safe_press_enter w h0) as [r t] end.
    cbn. intros K. autorewrite with trace. exact K.
Qed.

(** X12. When the answer of a file-upload field is a URL and the download
    raises or comes back with an error status, nothing is attached, not
    even the placeholder, and no temporary file is created: the exception is
    printed with the field's reference id and the field is advanced. *)
Theorem failed_download_attaches_nothing (w : world) (h : list event)
    (q_ref : value) (url : string) (e : exn) :
  startswith "http" url = true ->
  ((forall h', respond w h' (RequestsGet url None) = Raise e)
   \/ exists resp, (forall h', respond w h' (RequestsGet url None) = Ok resp)
                   /\ raise_for_status resp = Raise e) ->
  result (handle_field (VStr "file_upload") q_ref (VStr url)) w h = Ok tt
  /\ calls (events (handle_field (VStr "file_upload") q_ref (VStr url)) w h)
     = [RequestsGet url None; KeyboardPress "Enter"]
  /\ printed (events (handle_field (VStr "file_upload") q_ref (VStr url)) w h)
     = [MsgFieldException q_ref e].
Proof.
  intros Hp Hget.
  assert (Hu : truthy (VStr url) = true) by (destruct url; [discriminate | reflexivity]).
  unfold handle_field, field_interaction.
  change (in_strs (VStr "file_upload") free_text_types) with false.
  change (in_strs (VStr "file_upload") choice_types) with false.
  change (eq_str (VStr "file_upload") "dropdown") with false.
  change (eq_str (VStr "file_upload") "file_upload") with true.
  rewrite Hu. unfold startswith_method. rewrite Hp.
  unfold_run. cbn [py_str].
  destruct Hget as [Hget | (resp & Hget & Hs)]; rewrite Hget; [|rewrite Hs]; crank; auto.
Qed.

Lemma failed_download_attaches_nothing_witness :
  calls (events (handle_field (VStr "file_upload") (VStr "r5") (VStr "https://x.test/deck.pdf"))
                download_not_found [])
  = [RequestsGet "https://x.test/deck.pdf" None; KeyboardPress "Enter"].
Proof.
  refine (proj1 (proj2 (failed_download_attaches_nothing download_not_found [] (VStr "r5")
                          "https://x.test/deck.pdf" (HTTPError 404) eq_refl _))).
  right. exists {| status_code := 404; content := "" |}. split; [intros h'|]; reflexivity.
Defined.

(** ** Further properties: a whole fill attempt *)

Lemma setup_calls_ok (w : world) (url : string) :
  setup_succeeds w url ->
  (forall h, respond w h SyncPlaywrightEnter = Ok tt)
  /\ (forall h, respond w h (ChromiumLaunch HEADLESS) = Ok tt)
  /\ (forall h, respond w h BrowserNewPage = Ok tt)
  /\ (forall h, respond w h (PageSetDefaultTimeout 25000) = Ok tt)
  /\ (forall h, respond w h (PageGoto url) = Ok tt)
  /\ (forall h, respond w h (PageWaitForLoadState "networkidle") = Ok tt).
Proof.
  intros H. conjuncts; intros h.
  all: match goal with
       | Hs : setup_succeeds ?w0 ?u |- respond ?w0 ?h0 ?c = _ =>
           let I := fresh in
           assert (I : In c (setup_calls u)) by in_list;
           specialize (Hs h0 c I); destruct (respond w0 h0 c) as [[]|e];
             [reflexivity | discriminate]
       end.
Qed.

Lemma click_start_quiet (w : world) (h : list event) :
  keyboard (events click_start w h) = []
  /\ ~ In BrowserClose (calls (events click_start w h)).
Proof.
  unfold click_start. crank.
  all: split; [reflexivity | intros H; not_in_list H].
Qed.

Lemma final_submission_keyboard (w : world) (h : list event) :
  keyboard (events final_submission w h) = [submit_key].
Proof. unfold final_submission. crank; reflexivity. Qed.

Lemma events_perform (w : world) (h : list event) (c : call) :
  events (perform c) w h = [Called c (respond w h c)].
Proof. reflexivity. Qed.

(** The events of the inside of the [with] statement when the loop over the
    fields returns. *)
Lemma session_events_ok (w : world) (h : list event) url fields answers :
  setup_succeeds w url ->
  (forall h', result (for_each (enumerate fields) (visit_field answers)) w h' = Ok tt) ->
  exists h1 h2 h3 h4,
    events (session url fields answers) w h
    = [Called (ChromiumLaunch HEADLESS) (Ok tt); Called BrowserNewPage (Ok tt);
       Called (PageSetDefaultTimeout 25000) (Ok tt); Called (PageGoto url) (Ok tt);
       Called (PageWaitForLoadState "networkidle") (Ok tt)]
        ++ events click_start w h1
        ++ events (for_each (enumerate fields) (visit_field answers)) w h2
        ++ events final_submission w h3
        ++ events close_and_report w h4.
Proof.
  intros Hs Hloop. destruct (setup_calls_ok w url Hs) as (_ & H1 & H2 & H3 & H4 & H5).
  unfold session.
  repeat match goal with
         | |- context [events (bind ?m ?k) w ?h0] =>
             let E := fresh "E" in
             assert (E : result m w h0 = Ok tt)
               by first [ apply H1 | apply H2 | apply H3 | apply H4 | apply H5
                        | apply click_start_ok | apply Hloop | apply final_submission_ok ];
             rewrite (proj2 (bind_ok w h0 m k tt E)); clear E
         end.
  rewrite !events_perform, H1, H2, H3, H4, H5.
  cbn [app]. eauto.
Qed.

(** The events of the inside of the [with] statement when the loop over the
    fields raises. *)
Lemma session_events_raise (w : world) (h : list event) url fields answers e :
  setup_succeeds w url ->
  (forall h', result (for_each (enumerate fields) (visit_field answers)) w h' = Raise e) ->
  result (session url fields answers) w h = Raise e
  /\ exists h1 h2,
       events (session url fields answers) w h
       = [Called (ChromiumLaunch HEADLESS) (Ok tt); Called BrowserNewPage (Ok tt);
          Called (PageSetDefaultTimeout 25000) (Ok tt); Called (PageGoto url) (Ok tt);
          Called (PageWaitForLoadState "networkidle") (Ok tt)]
           ++ events click_start w h1
           ++ events (for_each (enumerate fields) (visit_field answers)) w h2.
Proof.
  intros Hs Hloop. destruct (setup_calls_ok w url Hs) as (_ & H1 & H2 & H3 & H4 & H5).
  unfold session.
  repeat match goal with
         | |- context [bind ?m ?k w ?h0] => fail 1
         | |- context [events (bind ?m ?k) w ?h0] =>
             let E := fresh "E" in
             assert (E : result m w h0 = Ok tt)
               by first [ apply H1 | apply H2 | apply H3 | apply H4 | apply H5
                        | apply click_start_ok ];
             rewrite (proj2 (bind_ok w h0 m k tt E)), (proj1 (bind_ok w h0 m k tt E));
             clear E
         end.
  match goal with
  | |- context [events (bind ?m ?k) w ?h0] =>
      rewrite (proj2 (bind_raise w h0 m k e (Hloop h0))),
              (proj1 (bind_raise w h0 m k e (Hloop h0)))
  end.
  split; [reflexivity|].
  rewrite !events_perform, H1, H2, H3, H4, H5.
  cbn [app]. eauto.
Qed.

(** [fill_and_submit_form] around its session, when the context is entered. *)
Lemma fill_events (w : world) (h : list event) url fields answers :
  respond w (h ++ [Printed MsgStep4]) SyncPlaywrightEnter = Ok tt ->
  exists h0 h',
    events (fill_and_submit_form url fields answers) w h
    = [Printed MsgStep4; Called SyncPlaywrightEnter (Ok tt)]
        ++ events (session url fields answers) w h0
        ++ [Called SyncPlaywrightExit (respond w h' SyncPlaywrightExit)]
    /\ result (fill_and_submit_form url fields answers) w h
       = match respond w h' SyncPlaywrightExit with
         | Ok _ => result (session url fields answers) w h0
         | Raise e => Raise e
         end.
Proof.
  intros He. rewrite fill_and_submit_form_session.
  unfold result, events, bind, print, with_cm, perform, bind. rewrite He.
  match goal with |- context [session url fields answers w ?h0] =>
    exists h0; destruct (session url fields answers w h0) as [r t] end.
  match goal with |- context [respond w ?h1 SyncPlaywrightExit] =>
    exists h1; destruct (respond w h1 SyncPlaywrightExit) as [[]|e] end; cbn; auto.
Qed.

(** X13. With an empty list of fields, as after a failed schema fetch, a
    fill attempt still opens the form and submits it: when the unguarded
    setup calls succeed, the only key pressed is Control+Enter, the browser
    is closed, and the answers are never looked at, whatever they are. *)
Theorem no_fields_still_submits (w : world) (h : list event) (url : string)
    (answers : value) :
  setup_succeeds w url ->
  keyboard (events (fill_and_submit_form url [] answers) w h) = [submit_key]
  /\ exists before,
       calls (events (fill_and_submit_form url [] answers) w h)
       = before ++ [BrowserClose; SyncPlaywrightExit].
Proof.
  intros Hs.
  destruct (fill_events w h url [] answers (proj1 (setup_calls_ok w url Hs) _))
    as (h0 & h' & -> & _).
  destruct (session_events_ok w h0 url [] answers Hs (fun _ => eq_refl))
    as (h1 & h2 & h3 & h4 & ->).
  change (events (for_each (enumerate []) (visit_field answers)) w h2) with (@nil event).
  split.
  - autorewrite with trace. cbn [is_keyboard app].
    rewrite (proj1 (click_start_quiet w h1)), final_submission_keyboard.
    unfold keyboard at 1. rewrite calls_close_and_report. reflexivity.
  - autorewrite with trace. rewrite calls_close_and_report.
    eexists. cbn [app]. rewrite !app_comm_cons, !app_assoc.
    rewrite <- (app_assoc _ [BrowserClose]). reflexivity.
Qed.

Lemma no_fields_still_submits_witness :
  keyboard (events (fill_and_submit_form TYPEFORM_URL [] (VList [])) calm []) = [submit_key].
Proof.
  refine (proj1 (no_fields_still_submits calm [] TYPEFORM_URL (VList []) _)).
  intros h c Hc. reflexivity.
Defined.

(** X14. When the answers are not a dictionary (the reply parsed to a JSON
    list, string or number) and there is at least one field, the lookup of
    the first field's answer raises outside every [try]: the attempt ends
    with an exception before any key is pressed, and the browser's [close]
    is never called. *)
Theorem answers_that_are_no_dictionary_abort_the_attempt (w : world) (h : list event)
    (url : string) (field : dict) (rest : list dict) (answers : value) :
  setup_succeeds w url ->
  (forall h', respond w h' (PageWaitForTimeout 500) = Ok tt) ->
  (forall entries, answers <> VDict entries) ->
  (exists e, result (fill_and_submit_form url (field :: rest) answers) w h = Raise e)
  /\ keyboard (events (fill_and_submit_form url (field :: rest) answers) w h) = []
  /\ ~ In BrowserClose (calls (events (fill_and_submit_form url (field :: rest) answers) w h)).
Proof.
  intros Hs Hwait Hna.
  assert (Hp : forall q_ref, provided_answer answers field q_ref = Raise AttributeError).
  { intros q_ref. unfold provided_answer.
    destruct answers; try reflexivity. now elim (Hna entries). }
  assert (Hloop : forall h',
             for_each (enumerate (field :: rest)) (visit_field answers) w h'
             = (Raise AttributeError,
                [Slept (Millis 1000); Called (PageWaitForTimeout 500) (Ok tt)])).
  { intros h'. cbn [enumerate enumerate_from for_each].
    unfold bind at 1. unfold visit_field, bind, sleep, perform, lift.
    rewrite Hwait, Hp. reflexivity. }
  destruct (fill_events w h url (field :: rest) answers (proj1 (setup_calls_ok w url Hs) _))
    as (h0 & h' & -> & ->).
  destruct (session_events_raise w h0 url (field :: rest) answers AttributeError Hs
              (fun h1 => f_equal fst (Hloop h1))) as (Hr & h1 & h2 & ->).
  rewrite Hr. unfold events at 2 4. rewrite Hloop. cbn [snd].
  split; [|split].
  - destruct (respond w h' SyncPlaywrightExit); eauto.
  - autorewrite with trace. cbn [is_keyboard app].
    now rewrite (proj1 (click_start_quiet w h1)).
  - autorewrite with trace. cbn [app]. intros H.
    pose proof (proj2 (click_start_quiet w h1)) as Q.
    repeat (destruct H as [H|H]; [discriminate H|]).
    rewrite !in_app_iff in H. cbn [In] in H. intuition (try discriminate).
Qed.

Lemma answers_that_are_no_dictionary_abort_the_attempt_witness :
  keyboard (events (fill_and_submit_form TYPEFORM_URL [email_field] (VList [VStr "a@b.com"]))
                   calm [])
  = [].
Proof.
  refine (proj1 (proj2 (answers_that_are_no_dictionary_abort_the_attempt calm []
                          TYPEFORM_URL email_field [] (VList [VStr "a@b.com"]) _ _ _))).
  - intros h c Hc. reflexivity.
  - intros h'. reflexivity.
  - intros entries. discriminate.
Defined.

(** X15. The Playwright context is scoped: once it is entered, its exit is
    the last call of the attempt, however the attempt ends; when entering
    raises, the attempt ends with that exception and makes no other call. *)
Theorem playwright_context_is_always_exited (w : world) (h : list event)
    (url : string) (fields : list dict) (answers : value) :
  let t := events (fill_and_submit_form url fields answers) w h in
  (respond w (h ++ [Printed MsgStep4]) SyncPlaywrightEnter = Ok tt ->
   exists between, calls t = SyncPlaywrightEnter :: between ++ [SyncPlaywrightExit])
  /\ (forall e,
        respond w (h ++ [Printed MsgStep4]) SyncPlaywrightEnter = Raise e ->
        calls t = [SyncPlaywrightEnter]
        /\ result (fill_and_submit_form url fields answers) w h = Raise e).
Proof.
  intros t. subst t. split.
  - intros He. destruct (fill_events w h url fields answers He) as (h0 & h' & -> & _).
    autorewrite with trace. cbn [app]. eauto.
  - intros e He. rewrite fill_and_submit_form_session.
    unfold result, events, bind, print, with_cm, perform, bind. rewrite He.
    split; reflexivity.
Qed.

Lemma playwright_context_is_always_exited_witness :
  exists between,
    calls (events (fill_and_submit_form TYPEFORM_URL [email_field] (VDict []))
                  navigation_fails [])
    = SyncPlaywrightEnter :: between ++ [SyncPlaywrightExit].
Proof.
  exact (proj1 (playwright_context_is_always_exited navigation_fails [] TYPEFORM_URL
                  [email_field] (VDict [])) eq_refl).
Defined.

(** ** Further properties: the main flow *)

(** X16. A failure of the table read is fatal: [main] raises the same
    exception, and neither the schema fetch nor anything else is attempted. *)
Theorem table_failure_aborts_before_anything_else (w : world) (h : list event) (e : exn) :
  respond w h select_rows = Raise e ->
  result main w h = Raise e /\ calls (events main w h) = [select_rows].
Proof.
  intros He. unfold result, events, main, get_rows, bind, perform.
  fold select_rows. rewrite He. split; reflexivity.
Qed.

Lemma table_failure_aborts_before_anything_else_witness :
  result main table_unreachable [] = Raise (LibraryError "APIError")
  /\ calls (events main table_unreachable []) = [select_rows].
Proof.
  exact (table_failure_aborts_before_anything_else table_unreachable []
           (LibraryError "APIError") eq_refl).
Defined.

(** X17. With an empty table, [main] returns normally, and what it did is
    the read of the table followed by what [get_form_fields] does: no
    request to the completion service, no browser. *)
Theorem empty_table_only_fetches_the_schema (w : world) (h : list event) :
  respond w h select_rows = Ok [] ->
  result main w h = Ok tt
  /\ events main w h
     = Called select_rows (Ok [])
         :: events (get_form_fields TYPEFORM_FORM_ID) w (h ++ [Called select_rows (Ok [])]).
Proof.
  intros He. unfold result, events, main, get_rows. unfold bind at 1 3, perform.
  fold select_rows. rewrite He. unfold bind.
  rewrite get_form_fields_run.
  destruct (fetch_fields TYPEFORM_FORM_ID w _) as [[fields|e] t]; cbn;
    rewrite ?app_nil_r; split; reflexivity.
Qed.

Lemma empty_table_only_fetches_the_schema_witness :
  result main calm [] = Ok tt
  /\ calls (events main calm [])
     = [select_rows; form_request TYPEFORM_FORM_ID; ResponseJson "body"].
Proof.
  destruct (empty_table_only_fetches_the_schema calm [] eq_refl) as [R E].
  split; [exact R|]. rewrite E. reflexivity.
Defined.

(** X18. [map_row_to_typeform] sends one request to the completion service
    and never a second one: when the request raises, so does the function,
    without parsing anything; when it returns, the function's outcome is
    the outcome of parsing the reply, whatever JSON value that is: the
    value is not checked against the fields. *)
Theorem one_completion_request_and_no_validation (w : world) (h : list event)
    (fields : list dict) (row : value) (model : string) :
  let completion := ChatCompletionCreate model fields row in
  let t := events (map_row_to_typeform fields row model) w h in
  (forall e, respond w (h ++ [Printed MsgStep2]) completion = Raise e ->
             result (map_row_to_typeform fields row model) w h = Raise e
             /\ calls t = [completion])
  /\ (forall reply,
        respond w (h ++ [Printed MsgStep2]) completion = Ok reply ->
        result (map_row_to_typeform fields row model) w h
        = respond w (h ++ [Printed MsgStep2; Called completion (Ok reply)]) (JsonLoads reply)
        /\ calls t = [completion; JsonLoads reply]).
Proof.
  intros completion t. subst t. split.
  - intros e He. unfold result, events, map_row_to_typeform, bind, print, perform.
    fold completion. rewrite He. split; reflexivity.
  - intros reply He.
    assert (Hh : (h ++ [Printed MsgStep2]) ++ [Called completion (Ok reply)]
                 = h ++ [Printed MsgStep2; Called completion (Ok reply)])
      by (rewrite <- app_assoc; reflexivity).
    unfold result, events, map_row_to_typeform, bind, print, perform.
    fold completion. rewrite He, Hh.
    destruct (respond w _ (JsonLoads reply)); split; reflexivity.
Qed.

Lemma one_completion_request_and_no_validation_witness :
  result (map_row_to_typeform [email_field] (VDict []) "gpt-5") completion_unreachable []
  = Raise (LibraryError "RateLimitError")
  /\ result (map_row_to_typeform [email_field] (VDict []) "gpt-5") calm [] = Ok (VDict []).
Proof.
  split.
  - exact (proj1 (proj1 (one_completion_request_and_no_validation completion_unreachable []
                           [email_field] (VDict []) "gpt-5")
                        (LibraryError "RateLimitError") eq_refl)).
  - exact (proj1 (proj2 (one_completion_request_and_no_validation calm []
                           [email_field] (VDict []) "gpt-5") "reply" eq_refl)).
Defined.

(** ** Further properties: strings and numbers *)

Lemma digits_value_acc (d : Decimal.uint) : forall acc,
  digits_value (Z.pos acc) (NilEmpty.string_of_uint d) = Z.pos (Pos.of_uint_acc d acc).
Proof.
  induction d as [|d IH|d IH|d IH|d IH|d IH|d IH|d IH|d IH|d IH|d IH]; intros acc;
    cbn [NilEmpty.string_of_uint digits_value Pos.of_uint_acc]; [reflexivity|..];
    rewrite <- IH; f_equal;
    match goal with
    | |- context [code ?c] =>
        let v := eval vm_compute in (code c) in change (code c) with v
    end; lia.
Qed.

Lemma digits_value_uint (d : Decimal.uint) :
  digits_value 0 (NilEmpty.string_of_uint d) = Z.of_N (Pos.of_uint d).
Proof.
  induction d as [|d IH|d IH|d IH|d IH|d IH|d IH|d IH|d IH|d IH|d IH];
    cbn [NilEmpty.string_of_uint digits_value Pos.of_uint]; [reflexivity|exact IH|..];
    cbn [Z.of_N]; rewrite <- digits_value_acc; reflexivity.
Qed.

Lemma uint_all_digits (d : Decimal.uint) :
  forallb is_digit (list_ascii_of_string (NilEmpty.string_of_uint d)) = true.
Proof. induction d; cbn in *; auto. Qed.

Lemma str_of_Z_pos (p : positive) :
  str_of_Z (Z.pos p) = NilEmpty.string_of_uint (Pos.to_uint p)
  /\ isdigit (str_of_Z (Z.pos p)) = true
  /\ digits_value 0 (str_of_Z (Z.pos p)) = Z.pos p.
Proof.
  assert (E : str_of_Z (Z.pos p) = NilEmpty.string_of_uint (Pos.to_uint p)).
  { unfold str_of_Z. cbn [Z.to_int NilZero.string_of_int NilZero.string_of_uint].
    pose proof (DecimalPos.Unsigned.to_uint_nonnil p) as Hn.
    destruct (Pos.to_uint p); [now elim Hn | reflexivity ..]. }
  split; [exact E|]. rewrite E. split.
  - pose proof (DecimalPos.Unsigned.to_uint_nonnil p) as Hn.
    pose proof (uint_all_digits (Pos.to_uint p)) as Hd.
    unfold isdigit. destruct (NilEmpty.string_of_uint (Pos.to_uint p)) eqn:Hs; [|exact Hd].
    destruct (Pos.to_uint p); [now elim Hn | discriminate ..].
  - rewrite digits_value_uint, DecimalPos.Unsigned.of_to. reflexivity.
Qed.

Lemma str_of_Z_nonneg (n : Z) :
  (0 <= n)%Z -> isdigit (str_of_Z n) = true /\ digits_value 0 (str_of_Z n) = n.
Proof.
  destruct n as [|p|p]; intros Hn; [split; reflexivity | | lia].
  exact (proj2 (str_of_Z_pos p)).
Qed.

Lemma str_of_Z_neg (p : positive) :
  str_of_Z (Z.neg p) = String "-" (str_of_Z (Z.pos p)).
Proof.
  rewrite (proj1 (str_of_Z_pos p)).
  unfold str_of_Z. cbn [Z.to_int NilZero.string_of_int NilZero.string_of_uint].
  pose proof (DecimalPos.Unsigned.to_uint_nonnil p) as Hn.
  destruct (Pos.to_uint p); [now elim Hn | reflexivity ..].
Qed.

(** The decimal rendering of an integer is ASCII, has as many digits as the
    rendering of its absolute value, and denotes the integer. *)
Lemma str_of_Z_numeral (n : Z) :
  is_ascii (str_of_Z n) = true
  /\ digit_count (str_of_Z n) = digit_count (str_of_Z (Z.abs n))
  /\ int_of_string (str_of_Z n) = Some n.
Proof.
  destruct n as [|p|p]; [repeat split | |].
  - destruct (str_of_Z_pos p) as (_ & Hd & Hv). split; [|split; [reflexivity|]].
    + exact (digits_are_ascii _ (isdigit_all_digits _ Hd)).
    + destruct (str_of_Z (Z.pos p)) as [|c r]; [discriminate|].
      cbn in Hd. apply andb_prop in Hd as [Hc Hr].
      rewrite (proj2 (digit_not_sign c r Hc)).
      cbn [numeral_body]. rewrite Hc, (numeral_body_digits r Hr). cbn [option_map].
      now rewrite Hv.
  - destruct (str_of_Z_pos p) as (_ & Hd & Hv). rewrite str_of_Z_neg.
    split; [|split; [reflexivity|]].
    + unfold is_ascii. cbn [list_ascii_of_string forallb].
      exact (digits_are_ascii _ (isdigit_all_digits _ Hd)).
    + unfold int_of_string. change (lstrip (String "-" ?r)) with (String "-" r). cbv iota.
      destruct (str_of_Z (Z.pos p)) as [|c r]; [discriminate|].
      cbn in Hd. apply andb_prop in Hd as [Hc Hr].
      cbn [numeral_body]. rewrite Hc, (numeral_body_digits r Hr). cbn [option_map].
      now rewrite Hv.
Qed.

(** [int(str(n))] is [n] when [str(n)] is within the limit on digits. *)
Lemma py_int_str_of_Z (i : interpreter) (n : Z) :
  over_limit i (str_of_Z n) = false -> py_int i (VStr (str_of_Z n)) = Ok n.
Proof.
  intros Hl. destruct (str_of_Z_numeral n) as (Ha & _ & Hn).
  cbn [py_int]. unfold str_int. now rewrite Ha, Hl, Hn.
Qed.

(** The dropdown branch depends on the answer only through the number of
    turns of its loop. *)
Lemma dropdown_by_turns (w : world) (h : list event) (q_ref v v' : value) :
  (if truthy v then Z.to_nat (dropdown_index (python w) v) else 0%nat)
  = (if truthy v' then Z.to_nat (dropdown_index (python w) v') else 0%nat) ->
  handle_field (VStr "dropdown") q_ref v w h = handle_field (VStr "dropdown") q_ref v' w h.
Proof.
  intros E.
  assert (G : forall u,
    handle_field (VStr "dropdown") q_ref u w h
    = handle_field (VStr "dropdown") q_ref
        (VInt (Z.of_nat (if truthy u then Z.to_nat (dropdown_index (python w) u) else 0%nat)))
        w h).
  { intros u. unfold handle_field, field_interaction.
    change (in_strs (VStr "dropdown") free_text_types) with false.
    change (in_strs (VStr "dropdown") choice_types) with false.
    change (eq_str (VStr "dropdown") "dropdown") with true.
    cbv iota. destruct (truthy u) eqn:Hu.
    - unfold try_except, bind, ask. cbn [py_int truthy].
      fold (dropdown_index (python w) u).
      destruct (Z.to_nat (dropdown_index (python w) u)) as [|k] eqn:Hk.
      + assert (Hr : py_range (dropdown_index (python w) u) = [])
          by (unfold py_range; now rewrite Hk).
        rewrite Hr. reflexivity.
      + assert (Hr : py_range (dropdown_index (python w) u) = py_range (Z.of_nat (S k)))
          by (unfold py_range; now rewrite Hk, Nat2Z.id).
        rewrite Hr. replace (negb (Z.of_nat (S k) =? 0)%Z) with true
          by (symmetry; apply negb_true_iff, Z.eqb_neq; lia).
        reflexivity.
    - reflexivity. }
  rewrite (G v), (G v'), E. reflexivity.
Qed.

(** X19. A dropdown answer given as the decimal string of an integer is
    handled exactly as the integer itself, as long as the string is within
    the interpreter's limit on digits: [int(str(n))] is [n], whatever the
    sign of [n]. *)
Theorem dropdown_answer_as_string_or_number (w : world) (h : list event)
    (q_ref : value) (n : Z) :
  over_limit (python w) (str_of_Z n) = false ->
  py_int (python w) (VStr (py_str (repr_str w) (VInt n))) = Ok n
  /\ handle_field (VStr "dropdown") q_ref (VStr (py_str (repr_str w) (VInt n))) w h
     = handle_field (VStr "dropdown") q_ref (VInt n) w h.
Proof.
  intros Hl. cbn [py_str py_repr].
  pose proof (py_int_str_of_Z (python w) n Hl) as R. split; [exact R|].
  apply dropdown_by_turns. unfold dropdown_index. rewrite R. cbn [py_int truthy].
  replace (negb (str_of_Z n =? "")%string) with true
    by (symmetry; apply negb_true_iff, String.eqb_neq, str_of_Z_nonempty).
  destruct (Z.eqb_spec n 0) as [->|Hn]; reflexivity.
Qed.

Lemma dropdown_answer_as_string_or_number_witness :
  handle_field (VStr "dropdown") (VStr "r3") (VStr "-3") only_key_a []
  = handle_field (VStr "dropdown") (VStr "r3") (VInt (-3)) only_key_a [].
Proof.
  exact (proj2 (dropdown_answer_as_string_or_number only_key_a [] (VStr "r3") (-3) eq_refl)).
Defined.

Lemma digit_chars (c : ascii) :
  is_digit c = true ->
  Ascii.eqb c " " = false /\ Ascii.eqb c "," = false /\ lower_char c = c.
Proof.
  intros Hc. destruct c as [[] [] [] [] [] [] [] []]; vm_compute in Hc;
    try discriminate; repeat split.
Qed.

Lemma digits_are_one_token (s : string) :
  forallb is_digit (list_ascii_of_string s) = true ->
  remove_spaces s = s /\ split "," s = [s] /\ lower s = s.
Proof.
  induction s as [|c r IH]; cbn; [auto|].
  intros H. apply andb_prop in H as [Hc Hr].
  destruct (digit_chars c Hc) as (Hsp & Hco & Hlo). destruct (IH Hr) as (I1 & I2 & I3).
  rewrite Hsp, Hco, Hlo, I1, I2, I3. auto.
Qed.

(** A run of digits is worth at least its accumulator shifted by its
    length. *)
Lemma digits_value_shift (s : string) : forall acc,
  forallb is_digit (list_ascii_of_string s) = true ->
  (0 <= acc)%Z ->
  (acc * 10 ^ Z.of_nat (String.length s) <= digits_value acc s)%Z.
Proof.
  induction s as [|c r IH]; intros acc H Hacc; cbn [String.length digits_value].
  - cbn. lia.
  - cbn in H. apply andb_prop in H as [Hc Hr].
    unfold is_digit in Hc. apply andb_prop in Hc as [Hlo Hhi].
    apply Z.leb_le in Hlo, Hhi.
    specialize (IH (10 * acc + (code c - 48))%Z Hr ltac:(lia)).
    rewrite Nat2Z.inj_succ, Z.pow_succ_r by lia.
    pose proof (Z.pow_nonneg 10 (Z.of_nat (String.length r)) ltac:(lia)). nia.
Qed.

Lemma unorm_head_zero (d l : Decimal.uint) :
  Decimal.unorm d = Decimal.D0 l -> l = Decimal.Nil.
Proof.
  induction d; cbn [Decimal.unorm]; try discriminate; [|exact IHd].
  now intros [= <-].
Qed.

(** The rendering of a positive integer does not begin with a zero. *)
Lemma to_uint_head (p : positive) (l : Decimal.uint) : Pos.to_uint p <> Decimal.D0 l.
Proof.
  intros E. pose proof (DecimalPos.Unsigned.to_of (Pos.to_uint p)) as U.
  rewrite DecimalPos.Unsigned.of_to in U. cbn [N.to_uint] in U.
  rewrite E in U. symmetry in U. pose proof (unorm_head_zero _ _ U) as ->.
  exact (DecimalPos.Unsigned.to_uint_nonzero p E).
Qed.

Lemma str_of_Z_head (p : positive) :
  exists c r, str_of_Z (Z.pos p) = String c r /\ code c <> 48%Z.
Proof.
  rewrite (proj1 (str_of_Z_pos p)). pose proof (to_uint_head p) as Hz.
  pose proof (DecimalPos.Unsigned.to_uint_nonnil p) as Hn.
  destruct (Pos.to_uint p) as [|d|d|d|d|d|d|d|d|d|d];
    [now elim Hn | now elim (Hz d) | ..];
    cbn [NilEmpty.string_of_uint]; eexists; eexists; (split; [reflexivity|]);
    vm_compute; discriminate.
Qed.

(** An integer below [10 ^ k] is rendered with at most [k] digits. *)
Lemma str_of_Z_length (p : positive) (k : nat) :
  (Z.pos p < 10 ^ Z.of_nat k)%Z -> (String.length (str_of_Z (Z.pos p)) <= k)%nat.
Proof.
  intros Hp. destruct (str_of_Z_pos p) as (_ & Hd & Hv).
  destruct (str_of_Z_head p) as (c & r & E & Hc). rewrite E in *.
  cbn in Hd. apply andb_prop in Hd as [Hdc Hr].
  unfold is_digit in Hdc. apply andb_prop in Hdc as [Hlo Hhi].
  apply Z.leb_le in Hlo, Hhi.
  cbn [digits_value String.length] in *.
  pose proof (digits_value_shift r (10 * 0 + (code c - 48))%Z Hr ltac:(lia)) as Hs.
  rewrite Hv in Hs.
  destruct (Nat.le_gt_cases (S (String.length r)) k) as [Hk|Hk]; [exact Hk|].
  exfalso.
  pose proof (Z.pow_le_mono_r 10 (Z.of_nat k) (Z.of_nat (String.length r))
                ltac:(lia) ltac:(lia)) as Hm.
  pose proof (Z.pow_pos_nonneg 10 (Z.of_nat (String.length r)) ltac:(lia) ltac:(lia)).
  nia.
Qed.

Lemma digit_count_length (s : string) : (digit_count s <= String.length s)%nat.
Proof.
  unfold digit_count. induction s as [|c r IH]; cbn [list_ascii_of_string filter String.length].
  - cbn. lia.
  - destruct (is_digit c); cbn [length]; lia.
Qed.

(** A string of at most 640 digits is within every limit. *)
Lemma short_within_limit (i : interpreter) (s : string) :
  (String.length s <= 640)%nat -> over_limit i s = false.
Proof.
  intros Hs. unfold over_limit. pose proof (digit_count_length s).
  replace (640 <? digit_count s)%nat with false
    by (symmetry; apply Nat.ltb_ge; lia).
  reflexivity.
Qed.

(** X20. A multiple-choice-like answer given as a JSON number [n], from 0
    up to the last code point that [chr] accepts, presses the single key
    [chr(ord('a') + n)] and then Enter, whatever the browser does; for [n]
    from 0 to 25 the key is the letter of that rank. *)
Theorem number_answer_presses_its_letter (w : world) (h : list event)
    (t : string) (q_ref : value) (n : Z) :
  In t choice_types ->
  (0 <= n < 1114112 - 97)%Z ->
  keyboard (events (handle_field (VStr t) q_ref (VInt n)) w h)
  = [KeyboardPress (utf8 (n + 97)); KeyboardPress "Enter"]
  /\ ((n <= 25)%Z -> utf8 (n + 97) = String (ascii_of_N (Z.to_N (n + 97))) "").
Proof.
  intros Ht Hn. split.
  - destruct (str_of_Z_nonneg n (proj1 Hn)) as [Hd Hv].
    pose proof (isdigit_all_digits _ Hd) as Hall.
    destruct (digits_are_one_token _ Hall) as (E1 & E2 & E3).
    assert (Hlen : (String.length (str_of_Z n) <= 640)%nat).
    { destruct n as [|p|p]; [cbn; lia | | lia].
      pose proof (str_of_Z_length p 7 ltac:(cbn; lia)). lia. }
    assert (Hlow : str_lower (python w) (str_of_Z n) = str_of_Z n)
      by (unfold str_lower; now rewrite (digits_are_ascii _ Hall), E3).
    assert (Hkey : key_of_token (python w) (str_of_Z n) = Ok (utf8 (n + 97))).
    { unfold key_of_token. destruct (str_int_digits (python w) _ Hd) as [-> Hi].
      cbn [py_int]. rewrite Hi, (short_within_limit _ _ Hlen), Hv. cbn [and_then].
      unfold chr, ord_a.
      replace ((0 <=? n + 97) && (n + 97 <? 1114112))%Z with true
        by (symmetry; apply andb_true_intro; split; [apply Z.leb_le | apply Z.ltb_lt]; lia).
      reflexivity. }
    destruct (choice_branch_events w h t q_ref (VInt n) Ht eq_refl)
      as (tail & enter & -> & Hk & _).
    cbn [py_str py_repr]. rewrite E1, E2, keyboard_app, Hk.
    pose proof (press_choices_any w (python w) [str_of_Z n] (h ++ [])) as Hl.
    cbv zeta in Hl. cbn [map keys_until_failure] in Hl. rewrite Hlow, Hkey in Hl.
    destruct Hl as [-> | (before & key & after & e & Hb & ->)].
    + reflexivity.
    + destruct before as [|b before]; [|destruct before; discriminate].
      injection Hb as <- _. reflexivity.
  - intros H25. unfold utf8.
    replace (n + 97 <? 128)%Z with true by (symmetry; apply Z.ltb_lt; lia). reflexivity.
Qed.

Lemma number_answer_presses_its_letter_witness :
  keyboard (events (handle_field (VStr "multiple_choice") (VStr "r2") (VInt 2)) only_key_a [])
  = [KeyboardPress "c"; KeyboardPress "Enter"].
Proof.
  refine (proj1 (number_answer_presses_its_letter only_key_a [] "multiple_choice"
                   (VStr "r2") 2 _ _)); [cbn; tauto | lia].
Defined.

Lemma split_not_nil (sep : ascii) (s : string) : split sep s <> [].
Proof.
  destruct s as [|c r]; cbn; [discriminate|].
  destruct (Ascii.eqb c sep); [discriminate|]. destruct (split sep r); discriminate.
Qed.

Lemma join_cons_char (sep : string) (c : ascii) (t : string) (ts : list string) :
  join sep (String c t :: ts) = String c (join sep (t :: ts)).
Proof. destruct ts; reflexivity. Qed.

Lemma commas_cons (c : ascii) (r : string) :
  commas (String c r) = if Ascii.eqb "," c then S (commas r) else commas r.
Proof.
  unfold commas. cbn [list_ascii_of_string filter].
  destruct (Ascii.eqb "," c); reflexivity.
Qed.

Lemma commas_remove_spaces (s : string) : commas (remove_spaces s) = commas s.
Proof.
  induction s as [|c r IH]; cbn [remove_spaces]; [reflexivity|].
  destruct (Ascii.eqb_spec c " ") as [->|Hc].
  - rewrite commas_cons. exact IH.
  - rewrite !commas_cons, IH. reflexivity.
Qed.

Lemma length_split (s : string) : length (split "," s) = S (commas s).
Proof.
  induction s as [|c r IH]; cbn [split]; [reflexivity|].
  rewrite commas_cons, (Ascii.eqb_sym "," c).
  destruct (Ascii.eqb c ","); [cbn [length]; now rewrite IH|].
  pose proof (split_not_nil "," r) as Hn.
  destruct (split "," r); [now elim Hn | exact IH].
Qed.

(** X21. Splitting an answer on commas loses nothing and never yields an
    empty list: joining the tokens with commas gives the string back, and
    an answer with [k] commas has [k + 1] tokens once its spaces are
    removed, so that an empty answer, a doubled or a trailing comma each
    contribute an empty token. *)
Theorem split_keeps_every_token (s : string) :
  join "," (split "," s) = s
  /\ length (split "," (remove_spaces s)) = S (commas s).
Proof.
  split.
  - induction s as [|c r IH]; cbn [split]; [reflexivity|].
    pose proof (split_not_nil "," r) as Hn.
    destruct (Ascii.eqb_spec c ",") as [->|Hc].
    + destruct (split "," r) as [|t ts] eqn:Hs; [now elim Hn|].
      cbn [join]. rewrite <- IH. reflexivity.
    + destruct (split "," r) as [|t ts] eqn:Hs; [now elim Hn|].
      rewrite join_cons_char, IH. reflexivity.
  - now rewrite length_split, commas_remove_spaces.
Qed.

Lemma lower_char_facts (c : ascii) :
  Ascii.eqb (lower_char c) " " = Ascii.eqb c " "
  /\ Ascii.eqb (lower_char c) "," = Ascii.eqb c ","
  /\ lower_char (lower_char c) = lower_char c.
Proof. destruct c as [[] [] [] [] [] [] [] []]; repeat split. Qed.

Lemma lower_idempotent (s : string) : lower (lower s) = lower s.
Proof.
  induction s as [|c r IH]; cbn; [reflexivity|].
  now rewrite (proj2 (proj2 (lower_char_facts c))), IH.
Qed.

Lemma remove_spaces_lower (s : string) : remove_spaces (lower s) = lower (remove_spaces s).
Proof.
  induction s as [|c r IH]; cbn; [reflexivity|].
  rewrite (proj1 (lower_char_facts c)). destruct (Ascii.eqb c " "); cbn; now rewrite IH.
Qed.

Lemma split_lower (s : string) : split "," (lower s) = map lower (split "," s).
Proof.
  induction s as [|c r IH]; cbn; [reflexivity|].
  rewrite (proj1 (proj2 (lower_char_facts c))), IH.
  destruct (Ascii.eqb c ","); cbn; [reflexivity|].
  destruct (split "," r); reflexivity.
Qed.

Lemma remove_spaces_idempotent (s : string) :
  remove_spaces (remove_spaces s) = remove_spaces s.
Proof.
  induction s as [|c r IH]; cbn; [reflexivity|].
  destruct (Ascii.eqb c " ") eqn:Hc; cbn; [exact IH|]. now rewrite Hc, IH.
Qed.

Lemma lower_char_ascii (c : ascii) : (code (lower_char c) <? 128)%Z = (code c <? 128)%Z.
Proof. destruct c as [[] [] [] [] [] [] [] []]; reflexivity. Qed.

Lemma is_ascii_lower (s : string) : is_ascii (lower s) = is_ascii s.
Proof.
  unfold is_ascii. induction s as [|c r IH]; cbn [lower list_ascii_of_string forallb];
    [reflexivity|].
  now rewrite lower_char_ascii, IH.
Qed.

Lemma str_lower_lower (i : interpreter) (s : string) :
  str_lower i (lower s) = str_lower i s.
Proof. unfold str_lower. now rewrite is_ascii_lower, lower_idempotent. Qed.

Lemma press_choice_lower (i : interpreter) (token : string) :
  press_choice i (lower token) = press_choice i token.
Proof. unfold press_choice. now rewrite str_lower_lower. Qed.

Lemma for_each_press_lower (i : interpreter) (tokens : list string) :
  for_each (map lower tokens) (press_choice i) = for_each tokens (press_choice i).
Proof.
  induction tokens as [|token rest IH]; cbn [map for_each]; [reflexivity|].
  now rewrite press_choice_lower, IH.
Qed.

(** X22. For a multiple-choice-like field, answers that differ only in the
    case of their letters or in their spaces are handled identically: the
    same calls with the same outcomes, in every world. *)
Theorem choice_answers_ignore_case_and_spaces (w : world) (h : list event)
    (t : string) (q_ref : value) (s : string) :
  In t choice_types ->
  handle_field (VStr t) q_ref (VStr (lower s)) w h = handle_field (VStr t) q_ref (VStr s) w h
  /\ handle_field (VStr t) q_ref (VStr (remove_spaces s)) w h
     = handle_field (VStr t) q_ref (VStr s) w h.
Proof.
  intros Ht. destruct (choice_type_not_free_text t Ht) as [Hf Hc].
  unfold handle_field, field_interaction. rewrite Hf, Hc.
  cbn [is_not_none py_str]. unfold_run.
  rewrite remove_spaces_lower, split_lower, for_each_press_lower, remove_spaces_idempotent.
  split; reflexivity.
Qed.

Lemma choice_answers_ignore_case_and_spaces_witness :
  handle_field (VStr "checkboxes") (VStr "r4") (VStr (lower "A, C")) only_key_a []
  = handle_field (VStr "checkboxes") (VStr "r4") (VStr "A, C") only_key_a [].
Proof.
  refine (proj1 (choice_answers_ignore_case_and_spaces only_key_a [] "checkboxes"
                   (VStr "r4") "A, C" _)).
  cbn. tauto.
Defined.

Lemma file_upload_attaches_download_or_placeholder_witness :
  calls (events (handle_field (VStr "file_upload") (VStr "r5") (VStr "https://x.test/deck.pdf"))
                calm [])
  = [RequestsGet "https://x.test/deck.pdf" None; NamedTemporaryFile;
     FileWrite "/tmp/tmpa1b2c3" "body"; FileClose "/tmp/tmpa1b2c3";
     PageLocator file_input; LocatorSetInputFiles "/tmp/tmpa1b2c3"; KeyboardPress "Enter"]
  /\ calls (events (handle_field (VStr "file_upload") (VStr "r5") (VStr "deck.pdf")) calm [])
     = [PageLocator file_input; LocatorSetInputFiles "/work/placeholder_deck.pdf";
        KeyboardPress "Enter"].
Proof.
  destruct (file_upload_attaches_download_or_placeholder calm [] (VStr "r5")
              (fun _ => eq_refl) (fun _ _ => eq_refl) (fun _ => eq_refl)) as [D P].
  split.
  - exact (D "https://x.test/deck.pdf" {| status_code := 200; content := "body" |}
             "/tmp/tmpa1b2c3" eq_refl (fun _ => eq_refl) eq_refl (fun _ => eq_refl)
             (fun _ => eq_refl) (fun _ => eq_refl)).
  - apply (P (VStr "deck.pdf")). right. exists "deck.pdf". split; reflexivity.
Defined.
